(** * comfy2py: the ComfyUI workflow wrapper

    A shallow embedding of [comfy2py.py] and the properties of its
    [Workflow] class: loading, the node scans, the prompt, steps and seed
    updates, saving and submission.

    The workflow document is whatever [json.load] returned, so it is
    modelled as a JSON value with Python's dynamic semantics for
    subscription, membership and iteration; a [dict] is an association
    list in insertion order, because the scans depend on that order.
    Numbers are integers: the wrapper reads and writes no other number
    (steps and seed), and real literals are outside the model.  A string
    is a sequence of 8-bit characters. *)

From Stdlib Require Import ZArith String Ascii List Bool Lia DecimalString DecimalZ.
From stdpp Require Import gmap strings.
Import ListNotations.

Set Warnings "-register-all".

Local Open Scope string_scope.
Local Open Scope list_scope.
Local Open Scope Z_scope.

(** ** Python values, as JSON gives them *)

Inductive json : Type :=
| JNull
| JBool (b : bool)
| JInt (z : Z)
| JStr (s : string)
| JArr (items : list json)
| JObj (entries : list (string * json)).

(** Induction over a value with the property known of all it contains. *)
Fixpoint json_nested_ind (P : json -> Prop)
  (HNull : P JNull) (HBool : forall b, P (JBool b)) (HInt : forall z, P (JInt z))
  (HStr : forall s, P (JStr s))
  (HArr : forall items, Forall P items -> P (JArr items))
  (HObj : forall entries, Forall (fun e => P (snd e)) entries -> P (JObj entries))
  (v : json) : P v :=
  let rec := json_nested_ind P HNull HBool HInt HStr HArr HObj in
  match v with
  | JNull => HNull
  | JBool b => HBool b
  | JInt z => HInt z
  | JStr s => HStr s
  | JArr items =>
      HArr items
        ((fix all (l : list json) : Forall P l :=
            match l with
            | [] => @List.Forall_nil _ P
            | x :: l' => @List.Forall_cons _ P x l' (rec x) (all l')
            end) items)
  | JObj entries =>
      HObj entries
        ((fix all (l : list (string * json)) : Forall (fun e => P (snd e)) l :=
            match l with
            | [] => @List.Forall_nil _ _
            | (k, x) :: l' => @List.Forall_cons _ _ (k, x) l' (rec x) (all l')
            end) entries)
  end.

(** The exceptions the program can raise. *)
Inductive exn : Type :=
| KeyError
| TypeError
| IndexError
| ValueError (msg : string)
| AttributeError
| FileNotFoundError (msg : string)
| JSONDecodeError.

Inductive result (A : Type) : Type :=
| Ok (a : A)
| Raise (e : exn).
Arguments Ok {A} a.
Arguments Raise {A} e.

Definition rbind {A B} (r : result A) (k : A -> result B) : result B :=
  match r with
  | Ok a => k a
  | Raise e => Raise e
  end.

Notation "'let?' x ':=' e 'in' k" := (rbind e (fun x => k))
  (at level 10, x name, e at level 100, k at level 200).

(** ** Dictionaries in insertion order *)

Module Dict.

Definition t := list (string * json).

Fixpoint get (k : string) (l : t) : option json :=
  match l with
  | [] => None
  | (k', v) :: l' => if String.eqb k k' then Some v else get k l'
  end.

Definition mem (k : string) (l : t) : bool :=
  match get k l with Some _ => true | None => false end.

(** [d[k] = v]: an existing key keeps its position, a new key goes last. *)
Fixpoint set (k : string) (v : json) (l : t) : t :=
  match l with
  | [] => [(k, v)]
  | (k', v') :: l' =>
      if String.eqb k k' then (k', v) :: l' else (k', v') :: set k v l'
  end.

Definition keys (l : t) : list string := map fst l.

End Dict.

(** ** Python's operators on these values *)

(** Normalisation of a sequence index: negative indices count from the end. *)
Definition py_index (len : nat) (i : Z) : option nat :=
  if (0 <=? i) && (i <? Z.of_nat len) then Some (Z.to_nat i)
  else if (i <? 0) && (- Z.of_nat len <=? i) then Some (Z.to_nat (Z.of_nat len + i))
  else None.

Definition char_str (c : ascii) : string := String c EmptyString.

(** An index usable on a sequence: an [int], or a [bool] (which is an [int]). *)
Definition as_index (k : json) : option Z :=
  match k with
  | JInt i => Some i
  | JBool true => Some 1
  | JBool false => Some 0
  | _ => None
  end.

(** [c[k]] *)
Definition py_getitem (c k : json) : result json :=
  match c with
  | JObj entries =>
      match k with
      | JStr s => match Dict.get s entries with
                  | Some v => Ok v
                  | None => Raise KeyError
                  end
      | JArr _ | JObj _ => Raise TypeError
      | _ => Raise KeyError
      end
  | JArr items =>
      match as_index k with
      | Some i => match py_index (length items) i with
                  | Some n => match nth_error items n with
                              | Some v => Ok v
                              | None => Raise IndexError
                              end
                  | None => Raise IndexError
                  end
      | None => Raise TypeError
      end
  | JStr s =>
      match as_index k with
      | Some i => match py_index (String.length s) i with
                  | Some n => match String.get n s with
                              | Some ch => Ok (JStr (char_str ch))
                              | None => Raise IndexError
                              end
                  | None => Raise IndexError
                  end
      | None => Raise TypeError
      end
  | _ => Raise TypeError
  end.

Fixpoint is_substring (x s : string) : bool :=
  String.prefix x s
  || match s with
     | EmptyString => false
     | String _ s' => is_substring x s'
     end.

Definition is_str (x : string) (v : json) : bool :=
  match v with
  | JStr s => String.eqb x s
  | _ => false
  end.

(** [x in c] for a string [x] *)
Definition py_contains (x : string) (c : json) : result bool :=
  match c with
  | JObj entries => Ok (Dict.mem x entries)
  | JArr items => Ok (existsb (is_str x) items)
  | JStr s => Ok (is_substring x s)
  | _ => Raise TypeError
  end.

Fixpoint chars (s : string) : list json :=
  match s with
  | EmptyString => []
  | String c s' => JStr (char_str c) :: chars s'
  end.

(** The values [for x in c] runs through. *)
Definition py_iter (c : json) : result (list json) :=
  match c with
  | JObj entries => Ok (map JStr (Dict.keys entries))
  | JArr items => Ok items
  | JStr s => Ok (chars s)
  | _ => Raise TypeError
  end.

Fixpoint list_set {A} (n : nat) (x : A) (l : list A) : list A :=
  match l, n with
  | [], _ => []
  | _ :: l', O => x :: l'
  | y :: l', S n' => y :: list_set n' x l'
  end.

(** [c[k] = v], returning the container after the assignment.  A dict
    is keyed by strings here, as [json.load] builds it, and the program
    stores under no other key: it only assigns where it has just read. *)
Definition py_setitem (c k v : json) : result json :=
  match c with
  | JObj entries =>
      match k with
      | JStr s => Ok (JObj (Dict.set s v entries))
      | _ => Raise TypeError
      end
  | JArr items =>
      match as_index k with
      | Some i => match py_index (length items) i with
                  | Some n => Ok (JArr (list_set n v items))
                  | None => Raise IndexError
                  end
      | None => Raise TypeError
      end
  | _ => Raise TypeError
  end.

(** The decimal text of an integer. *)
Definition string_of_Z (z : Z) : string := NilZero.string_of_int (Z.to_int z).

(** [str(v)], as an f-string field prints it; the [repr] of a list or a
    dict is left to the caller. *)
Definition py_str (repr : json -> string) (v : json) : string :=
  match v with
  | JStr s => s
  | JNull => "None"
  | JBool true => "True"
  | JBool false => "False"
  | JInt z => string_of_Z z
  | _ => repr v
  end.

Definition is_none (v : json) : bool :=
  match v with JNull => true | _ => false end.

(** [s.endswith(suf)]: some tail of [s] is [suf]. *)
Fixpoint ends_with (suf s : string) : bool :=
  String.eqb suf s
  || match s with
     | EmptyString => false
     | String _ s' => ends_with suf s'
     end.

(** [os.path.join(a, b)] on POSIX. *)
Definition path_join (a b : string) : string :=
  if String.prefix "/" b then b
  else if String.eqb a EmptyString || ends_with "/" a then a +:+ b
  else a +:+ "/" +:+ b.

Definition DEFAULT_WORKFLOW_PATH : string := "/Users/simondharcourt/Downloads".

(** A name with '.json' appended when it does not end with it, and the
    path such a name stands for. *)
Definition with_json_suffix (n : string) : string :=
  if negb (ends_with ".json" n) then n +:+ ".json" else n.

Definition workflow_path (n : string) : string :=
  path_join DEFAULT_WORKFLOW_PATH (with_json_suffix n).

(** ** The data model of the specification

    A workflow document maps node ids to node records, and every node
    record has an [inputs] mapping.  Being a mapping, it has no id twice. *)

Definition node_ok (v : json) : bool :=
  match v with
  | JObj fields => match Dict.get "inputs" fields with
                   | Some (JObj _) => true
                   | _ => false
                   end
  | _ => false
  end.

(** No string occurs twice in [l]. *)
Fixpoint distinct (l : list string) : bool :=
  match l with
  | [] => true
  | x :: l' => negb (existsb (String.eqb x) l') && distinct l'
  end.

(** A value Python can hold: every dict in it has distinct keys. *)
Fixpoint py_valid (v : json) : bool :=
  match v with
  | JArr items => forallb py_valid items
  | JObj entries =>
      distinct (map fst entries) && forallb (fun e => py_valid (snd e)) entries
  | _ => true
  end.

Definition is_workflow_document (d : json) : bool :=
  match d with
  | JObj entries =>
      distinct (Dict.keys entries) && forallb (fun e => node_ok (snd e)) entries
  | _ => false
  end.

(** The node record under an id, the [inputs] mapping of a node, and one
    input of one node: the observations the properties are stated with. *)
Definition node_of (d : json) (id : string) : option json :=
  match d with
  | JObj entries => Dict.get id entries
  | _ => None
  end.

Definition node_inputs (node : json) : option Dict.t :=
  match node with
  | JObj fields => match Dict.get "inputs" fields with
                   | Some (JObj inputs) => Some inputs
                   | _ => None
                   end
  | _ => None
  end.

Definition node_input (field : string) (node : json) : option json :=
  match node_inputs node with
  | Some inputs => Dict.get field inputs
  | None => None
  end.

Definition input_of (d : json) (id field : string) : option json :=
  match node_of d id with
  | Some node => node_input field node
  | None => None
  end.

(** The node's inputs contain [key]. *)
Definition holds (key : string) (node : json) : bool :=
  match node_input key node with Some _ => true | None => false end.

(** What a node that holds [key] links to: the head of [inputs[key]]. *)
Definition link_target (key : string) (node : json) : result (option json) :=
  match node_input key node with
  | Some v => let? node_id := py_getitem v (JInt 0) in Ok (Some node_id)
  | None => Ok None
  end.

(** The first node, in the order of the mapping, whose inputs contain [key]. *)
Definition first_holder (key : string) (d : json) : option (string * json) :=
  match d with
  | JObj entries => find (fun e => holds key (snd e)) entries
  | _ => None
  end.

(** What the scan for [key] comes to on a document: the link target of
    the first holder, or nothing. *)
Definition found_link (key : string) (d : json) : result (option json) :=
  match first_holder key d with
  | Some (_, node) => link_target key node
  | None => Ok None
  end.

(** The first holder of [key], if there is one, holds a link under it: a
    list that starts with the id of the node linked to. *)
Definition linked (key : string) (d : json) : bool :=
  match first_holder key d with
  | Some (_, node) =>
      match node_input key node with
      | Some (JArr (_ :: _)) => true
      | _ => false
      end
  | None => true
  end.

(** A node record with one of its inputs set. *)
Definition with_input (field : string) (v : json) (node : json) : json :=
  match node with
  | JObj fields =>
      match Dict.get "inputs" fields with
      | Some (JObj inputs) =>
          JObj (Dict.set "inputs" (JObj (Dict.set field v inputs)) fields)
      | _ => node
      end
  | _ => node
  end.

(** A field of a node record other than through [inputs]. *)
Definition field_of (d : json) (id field : string) : option json :=
  match node_of d id with
  | Some (JObj fields) => Dict.get field fields
  | _ => None
  end.

Definition node_ids (d : json) : list string :=
  match d with
  | JObj entries => Dict.keys entries
  | _ => []
  end.

(** ** The object, the world around it, and the method monad *)

(** [workflow_data] is [None] until [__init__] has bound the attribute. *)
Record Workflow : Type := mkWorkflow {
  workflow_name : string;
  workflow_data : option json
}.

(** An HTTP request object of [urllib.request]; one with a body is a POST. *)
Record Request : Type := mkRequest {
  req_url : string;
  req_data : option string
}.

(** The files by path, the texts printed so far, the random source (the
    raw values still to be drawn) and the HTTP requests sent so far. *)
Record World : Type := mkWorld {
  files : gmap string string;
  stdout : list string;
  entropy : nat -> Z;
  sent : list Request
}.

(** A method runs on [self] and the world; when it raises, what it had
    already changed stays changed. *)
Definition M (A : Type) : Type :=
  Workflow -> World -> result A * Workflow * World.

Definition ret {A} (a : A) : M A := fun w W => (Ok a, w, W).

Definition raise {A} (e : exn) : M A := fun w W => (Raise e, w, W).

Definition bind {A B} (m : M A) (k : A -> M B) : M B :=
  fun w W =>
    match m w W with
    | (Ok a, w', W') => k a w' W'
    | (Raise e, w', W') => (Raise e, w', W')
    end.

Notation "x <- m ;; k" := (bind m (fun x => k))
  (at level 100, m at next level, right associativity).
Notation "m ;; k" := (bind m (fun _ => k))
  (at level 100, right associativity).

Definition lift {A} (r : result A) : M A :=
  fun w W => (r, w, W).

(** [self.workflow_data] and [self.workflow_name], read and assigned. *)
Definition self_data : M json :=
  fun w W =>
    match workflow_data w with
    | Some d => (Ok d, w, W)
    | None => (Raise AttributeError, w, W)
    end.

Definition set_data (d : json) : M unit :=
  fun w W => (Ok tt, mkWorkflow (workflow_name w) (Some d), W).

Definition self_name : M string := fun w W => (Ok (workflow_name w), w, W).

Definition set_name (n : string) : M unit :=
  fun w W => (Ok tt, mkWorkflow n (workflow_data w), W).

Definition print (line : string) : M unit :=
  fun w W => (Ok tt, w, mkWorld (files W) (stdout W ++ [line]) (entropy W) (sent W)).

Definition path_exists (path : string) : M bool :=
  fun w W => (Ok (bool_decide (is_Some (files W !! path))), w, W).

(** [open(path, 'r').read()] *)
Definition read_file (path : string) : M string :=
  fun w W =>
    match files W !! path with
    | Some text => (Ok text, w, W)
    | None => (Raise (FileNotFoundError path), w, W)
    end.

(** What stands before the last '/' of a path, when it has one: the
    directory the path names its file in. *)
Fixpoint parent (path : string) : option string :=
  match path with
  | EmptyString => None
  | String c rest =>
      match parent rest with
      | Some dir => Some (String c dir)
      | None => if Ascii.eqb c "/" then Some EmptyString else None
      end
  end.

(** Whether the directory of a path is there.  [dir_exists] tells it of
    a directory named in the path; a path without '/' is in the working
    directory and one with nothing before its last '/' in the root, and
    these two always exist. *)
Definition parent_exists (dir_exists : string -> bool) (path : string) : bool :=
  match parent path with
  | None => true
  | Some dir => if String.eqb dir EmptyString then true else dir_exists dir
  end.

(** Whether [open(path, 'w')] finds its way: the file is there already,
    or the path is not empty and its directory is there.  Permissions
    are taken as granted, and the path does not name a directory. *)
Definition can_open_w (dir_exists : string -> bool) (W : World) (path : string) : bool :=
  bool_decide (is_Some (files W !! path))
  || (negb (String.eqb path EmptyString) && parent_exists dir_exists path).

(** [open(path, 'w')] creates or empties the file, and raises
    [FileNotFoundError] when the directory of the path is missing: then
    nothing is created. *)
Definition open_w (dir_exists : string -> bool) (path : string) : M unit :=
  fun w W =>
    if can_open_w dir_exists W path
    then (Ok tt, w, mkWorld (<[path := EmptyString]> (files W)) (stdout W) (entropy W) (sent W))
    else (Raise (FileNotFoundError path), w, W).

(** [json.dump(data, f)] on the file [f] that [open_w] has opened at
    [path]: the text of the document replaces the empty content the file
    then has. *)
Definition json_dump (path text : string) : M unit :=
  fun w W => (Ok tt, w, mkWorld (<[path := text]> (files W)) (stdout W) (entropy W) (sent W)).

(** [random.randint(a, b)]: both ends included. *)
Definition randint (a b : Z) : M Z :=
  fun w W =>
    if b <? a then (Raise (ValueError "empty range for randrange()"), w, W)
    else (Ok (a + entropy W 0%nat mod (b - a + 1)), w,
          mkWorld (files W) (stdout W) (fun i => entropy W (S i)) (sent W)).

(** [request.urlopen(req)]: the only primitive that sends anything. *)
Definition urlopen (req : Request) : M unit :=
  fun w W => (Ok tt, w, mkWorld (files W) (stdout W) (entropy W) (sent W ++ [req])).

Fixpoint for_each {A} (xs : list A) (body : A -> M unit) : M unit :=
  match xs with
  | [] => ret tt
  | x :: xs' => body x ;; for_each xs' body
  end.

(** ** The methods of [Workflow]

    Each method keeps the name it has in the source; [describe], which
    only pretty-prints the document, is left out. *)

(** The parsed command line. *)
Record Args : Type := mkArgs {
  arg_workflow : string;
  arg_prompt : option string;
  arg_neg_prompt : option string;
  arg_steps : option Z;
  arg_seed : option Z;
  arg_port : Z;
  arg_host : string;
  arg_save : option string
}.

Section Program.

(** What the program calls outside this file: [json.dumps] and
    [json.load] (a text that does not parse is [None]), the truth value
    of what [execution.validate_prompt] returns, and the [repr] of a
    list or a dict.  The directories that exist are a parameter too: the
    program creates none and removes none. *)
Variable json_dumps : json -> string.
Variable json_loads : string -> option json.
Variable validate_prompt : json -> bool.
Variable py_repr : json -> string.
Variable dir_exists : string -> bool.

Definition is_valid : M bool :=
  d <- self_data ;;
  ret (validate_prompt d).

Definition load_workflow : M json :=
  n <- self_name ;;
  (if negb (ends_with ".json" n) then set_name (n +:+ ".json") else ret tt) ;;
  n <- self_name ;;
  let workflow_path := path_join DEFAULT_WORKFLOW_PATH n in
  found <- path_exists workflow_path ;;
  if negb found then
    raise (FileNotFoundError ("Workflow file not found: " +:+ workflow_path))
  else
    text <- read_file workflow_path ;;
    match json_loads text with
    | Some d => ret d
    | None => raise JSONDecodeError
    end.

(** [Workflow(workflow_name)]: the object if [__init__] returns. *)
Definition init (workflow_name : string) (W : World) : result Workflow * World :=
  let body :=
    d <- load_workflow ;;
    set_data d ;;
    valid <- is_valid ;;
    if negb valid then
      n <- self_name ;;
      raise (ValueError ("Workflow " +:+ n +:+ " is not valid"))
    else ret tt in
  match body (mkWorkflow workflow_name None) W with
  | (Ok _, w, W') => (Ok w, W')
  | (Raise e, _, W') => (Raise e, W')
  end.

(** [d[node]['inputs']] *)
Definition inputs_at (d node : json) : result json :=
  let? nd := py_getitem d node in
  py_getitem nd (JStr "inputs").

(** The loop shared by [get_prompt_node_id] and [get_node_id]: the first
    node whose inputs contain [key] ends it with [inputs[key][0]]. *)
Fixpoint scan_links (key : string) (d : json) (nodes : list json)
  : result (option json) :=
  match nodes with
  | [] => Ok None
  | node :: rest =>
      let? inputs := inputs_at d node in
      let? found := py_contains key inputs in
      if found then
        let? inputs := inputs_at d node in
        let? link := py_getitem inputs (JStr key) in
        let? node_id := py_getitem link (JInt 0) in
        Ok (Some node_id)
      else scan_links key d rest
  end.

(** [None] is returned as [JNull]. *)
Definition get_prompt_node_id (tone : string) : M json :=
  if negb (existsb (String.eqb tone) ["positive"; "negative"]) then
    raise (ValueError "tone should be 'positive' or 'negative'.")
  else
    d <- self_data ;;
    nodes <- lift (py_iter d) ;;
    r <- lift (scan_links tone d nodes) ;;
    match r with
    | Some node_id => ret node_id
    | None => ret JNull
    end.

Definition get_node_id (node_type : string) : M json :=
  d <- self_data ;;
  nodes <- lift (py_iter d) ;;
  r <- lift (scan_links node_type d nodes) ;;
  match r with
  | Some node_id => ret node_id
  | None => raise (ValueError "No node found")
  end.

(** [self.workflow_data[node]['inputs'][field] = v].  No two places of a
    document that [json.load] built share an object, so the assignment
    inside is the document rebuilt along the path. *)
Definition store_input (node : json) (field : string) (v : json) : M unit :=
  d <- self_data ;;
  nd <- lift (py_getitem d node) ;;
  inputs <- lift (py_getitem nd (JStr "inputs")) ;;
  inputs' <- lift (py_setitem inputs (JStr field) v) ;;
  nd' <- lift (py_setitem nd (JStr "inputs") inputs') ;;
  d' <- lift (py_setitem d node nd') ;;
  set_data d'.

(** [self.workflow_data[node]['inputs'][field]] *)
Definition load_input (node : json) (field : string) : M json :=
  d <- self_data ;;
  lift (let? inputs := inputs_at d node in py_getitem inputs (JStr field)).

Definition update_positive_prompt (prompt : json) : M unit :=
  positive_node_id <- get_prompt_node_id "positive" ;;
  if negb (is_none positive_node_id) then
    store_input positive_node_id "text" prompt
  else print "No positive node found".

Definition update_negative_prompt (prompt : json) : M unit :=
  negative_node_id <- get_prompt_node_id "negative" ;;
  if negb (is_none negative_node_id) then
    store_input negative_node_id "text" prompt
  else print "No negative node found".

Definition show_prompts : M unit :=
  positive_node_id <- get_prompt_node_id "positive" ;;
  negative_node_id <- get_prompt_node_id "negative" ;;
  (if negb (is_none positive_node_id) then
     text <- load_input positive_node_id "text" ;;
     print ("Positive prompt: " +:+ py_str py_repr text)
   else ret tt) ;;
  (if negb (is_none negative_node_id) then
     text <- load_input negative_node_id "text" ;;
     print ("Negative prompt: " +:+ py_str py_repr text)
   else ret tt).

Definition print_model : M unit :=
  model_node_id <- get_node_id "model" ;;
  if negb (is_none model_node_id) then
    ckpt <- load_input model_node_id "ckpt_name" ;;
    print ("Model: " +:+ py_str py_repr ckpt)
  else ret tt.

(** The request is built and dropped: the line that would open it is a
    comment in the source. *)
Definition queue_prompt (server_adress : string) : M unit :=
  d <- self_data ;;
  let prompt := JObj [("prompt", d)] in
  let body := json_dumps prompt in
  let req := mkRequest ("http://" +:+ server_adress +:+ "/prompt") (Some body) in
  ret tt.

Definition update_steps (steps : json) : M unit :=
  d <- self_data ;;
  nodes <- lift (py_iter d) ;;
  for_each nodes (fun node =>
    d <- self_data ;;
    inputs <- lift (inputs_at d node) ;;
    found <- lift (py_contains "steps" inputs) ;;
    if found then store_input node "steps" steps else ret tt).

Definition update_seed (seed : json) : M unit :=
  d <- self_data ;;
  nodes <- lift (py_iter d) ;;
  for_each nodes (fun node =>
    d <- self_data ;;
    inputs <- lift (inputs_at d node) ;;
    found <- lift (py_contains "seed" inputs) ;;
    if found then
      match seed with
      | JInt (-1) =>
          r <- randint 0 1000000 ;;
          store_input node "seed" (JInt r)
      | _ => store_input node "seed" seed
      end
    else ret tt).

Definition save_workflow (workflow_name : option string) : M unit :=
  n <- match workflow_name with
       | None => self_name
       | Some n => ret n
       end ;;
  let n := with_json_suffix n in
  let path := path_join DEFAULT_WORKFLOW_PATH n in
  open_w dir_exists path ;;
  d <- self_data ;;
  json_dump path (json_dumps d).

(** A string flag counts when it is given and not empty, a number flag
    when it is given and not zero. *)
Definition when_str (o : option string) (k : string -> M unit) : M unit :=
  match o with
  | Some s => if String.eqb s EmptyString then ret tt else k s
  | None => ret tt
  end.

Definition when_int (o : option Z) (k : Z -> M unit) : M unit :=
  match o with
  | Some z => if z =? 0 then ret tt else k z
  | None => ret tt
  end.

Definition main (args : Args) (W : World) : result unit * World :=
  let server_address := arg_host args +:+ ":" +:+ string_of_Z (arg_port args) in
  match init (arg_workflow args) W with
  | (Raise e, W') => (Raise e, W')
  | (Ok workflow, W') =>
      let run :=
        when_str (arg_prompt args) (fun p => update_positive_prompt (JStr p)) ;;
        when_str (arg_neg_prompt args) (fun p => update_negative_prompt (JStr p)) ;;
        when_int (arg_steps args) (fun n => update_steps (JInt n)) ;;
        when_int (arg_seed args) (fun n => update_seed (JInt n)) ;;
        when_str (arg_save args) (fun n => save_workflow (Some n)) ;;
        queue_prompt server_address in
      match run workflow W' with
      | (r, _, W'') => (r, W'')
      end
  end.

End Program.

(** ** What the update loops come to *)

(** One pass over the nodes, in order, with a node update that may use
    the world (to draw a number): what the update loops come to. *)
Fixpoint map_nodes (upd : json -> World -> json * World) (entries : Dict.t) (W : World)
  : Dict.t * World :=
  match entries with
  | [] => ([], W)
  | (k, node) :: rest =>
      let (node', W1) := upd node W in
      let (rest', W2) := map_nodes upd rest W1 in
      ((k, node') :: rest', W2)
  end.

Definition steps_node (steps : json) (node : json) (W : World) : json * World :=
  (if holds "steps" node then with_input "steps" steps node else node, W).

Definition drawn_seed_node (node : json) (W : World) : json * World :=
  if holds "seed" node then
    (with_input "seed" (JInt (0 + entropy W 0%nat mod (1000000 - 0 + 1))) node,
     mkWorld (files W) (stdout W) (fun i => entropy W (S i)) (sent W))
  else (node, W).

(** ** A reference JSON codec

    A printer in the default format of [json.dumps] and a parser for what
    it prints, used to run the save and load properties on documents. *)

Module RefJson.

Definition dquote : ascii := ascii_of_nat 34.
Definition backslash : ascii := ascii_of_nat 92.

Definition hex_digit (n : N) : ascii :=
  if (n <? 10)%N then ascii_of_N (48 + n) else ascii_of_N (87 + n).

Definition escape_char (c : ascii) : string :=
  let n := N_of_ascii c in
  if Ascii.eqb c dquote then String backslash (String dquote EmptyString)
  else if Ascii.eqb c backslash then String backslash (String backslash EmptyString)
  else if (n =? 10)%N then String backslash "n"
  else if (n =? 13)%N then String backslash "r"
  else if (n =? 9)%N then String backslash "t"
  else if (n =? 8)%N then String backslash "b"
  else if (n =? 12)%N then String backslash "f"
  else if (n <? 32)%N || (126 <? n)%N then
    String backslash
      ("u00" +:+ String (hex_digit (n / 16)) (String (hex_digit (n mod 16)) EmptyString))
  else String c EmptyString.

Fixpoint escape (s : string) : string :=
  match s with
  | EmptyString => EmptyString
  | String c s' => escape_char c +:+ escape s'
  end.

Definition quote (s : string) : string :=
  String dquote (escape s +:+ String dquote EmptyString).

Fixpoint join (sep : string) (l : list string) : string :=
  match l with
  | [] => EmptyString
  | [x] => x
  | x :: l' => x +:+ sep +:+ join sep l'
  end.

Fixpoint dumps (v : json) : string :=
  match v with
  | JNull => "null"
  | JBool true => "true"
  | JBool false => "false"
  | JInt z => string_of_Z z
  | JStr s => quote s
  | JArr items => "[" +:+ join ", " (map dumps items) +:+ "]"
  | JObj entries =>
      "{" +:+ join ", " (map (fun e => quote (fst e) +:+ ": " +:+ dumps (snd e)) entries)
      +:+ "}"
  end.

Definition is_ws (c : ascii) : bool :=
  let n := N_of_ascii c in
  ((n =? 32) || (n =? 10) || (n =? 13) || (n =? 9))%N.

Fixpoint skip_ws (s : string) : string :=
  match s with
  | String c s' => if is_ws c then skip_ws s' else s
  | EmptyString => s
  end.

Definition unhex (c : ascii) : option N :=
  let n := N_of_ascii c in
  if ((48 <=? n) && (n <=? 57))%N then Some (n - 48)%N
  else if ((97 <=? n) && (n <=? 102))%N then Some (n - 87)%N
  else if ((65 <=? n) && (n <=? 70))%N then Some (n - 55)%N
  else None.

Definition unescape (e : ascii) : option ascii :=
  if Ascii.eqb e dquote then Some dquote
  else if Ascii.eqb e backslash then Some backslash
  else match e with
       | "/"%char => Some "/"%char
       | "n"%char => Some (ascii_of_nat 10)
       | "r"%char => Some (ascii_of_nat 13)
       | "t"%char => Some (ascii_of_nat 9)
       | "b"%char => Some (ascii_of_nat 8)
       | "f"%char => Some (ascii_of_nat 12)
       | _ => None
       end.

Definition push (c : ascii) (r : option (string * string)) : option (string * string) :=
  match r with
  | Some (body, rest) => Some (String c body, rest)
  | None => None
  end.

(** The characters of a string literal, after its opening quote. *)
Fixpoint parse_chars (s : string) : option (string * string) :=
  match s with
  | EmptyString => None
  | String c rest =>
      if Ascii.eqb c dquote then Some (EmptyString, rest)
      else if Ascii.eqb c backslash then
        match rest with
        | String "u"%char (String h1 (String h2 (String h3 (String h4 rest')))) =>
            match unhex h1, unhex h2, unhex h3, unhex h4 with
            | Some 0%N, Some 0%N, Some a, Some b =>
                push (ascii_of_N (16 * a + b)) (parse_chars rest')
            | _, _, _, _ => None
            end
        | String e rest' =>
            match unescape e with
            | Some c' => push c' (parse_chars rest')
            | None => None
            end
        | EmptyString => None
        end
      else if (N_of_ascii c <? 32)%N then None
      else push c (parse_chars rest)
  end.

Definition digit (c : ascii) : option Z :=
  let n := N_of_ascii c in
  if ((48 <=? n) && (n <=? 57))%N then Some (Z.of_N n - 48) else None.

(** The longest run of digits at the head of [s], as a number. *)
Fixpoint parse_digits (acc : Z) (s : string) : Z * string :=
  match s with
  | String c s' =>
      match digit c with
      | Some d => parse_digits (10 * acc + d) s'
      | None => (acc, s)
      end
  | EmptyString => (acc, s)
  end.

Definition float_follows (s : string) : bool :=
  match s with
  | String "."%char _ | String "e"%char _ | String "E"%char _ => true
  | _ => false
  end.

Definition parse_nat (s : string) : option (Z * string) :=
  match s with
  | String "0"%char rest =>
      match rest with
      | String c _ => match digit c with Some _ => None | None => Some (0, rest) end
      | EmptyString => Some (0, rest)
      end
  | String c _ =>
      match digit c with
      | Some _ => Some (parse_digits 0 s)
      | None => None
      end
  | EmptyString => None
  end.

Definition parse_number (s : string) : option (json * string) :=
  let signed :=
    match s with
    | String "-"%char s' =>
        match parse_nat s' with
        | Some (n, rest) => Some (- n, rest)
        | None => None
        end
    | _ => parse_nat s
    end in
  match signed with
  | Some (z, rest) => if float_follows rest then None else Some (JInt z, rest)
  | None => None
  end.

(** [s] without its first character, when that is [c]. *)
Definition expect (c : ascii) (s : string) : option string :=
match s with
| String c' rest => if Ascii.eqb c' c then Some rest else None
| EmptyString => None
end.

(** [s] without the word [w] it starts with. *)
Fixpoint keyword (w s : string) : option string :=
match w with
| EmptyString => Some s
| String c w' =>
    match expect c s with
    | Some rest => keyword w' rest
    | None => None
    end
end.

Definition parse_literal (s : string) : option (json * string) :=
match keyword "null" s with
| Some rest => Some (JNull, rest)
| None =>
    match keyword "true" s with
    | Some rest => Some (JBool true, rest)
    | None =>
        match keyword "false" s with
        | Some rest => Some (JBool false, rest)
        | None => parse_number s
        end
    end
end.

Fixpoint parse_value (fuel : nat) (s : string) : option (json * string) :=
match fuel with
| O => None
| S f =>
    match skip_ws s with
    | String c rest as s' =>
        if Ascii.eqb c "["%char then
          match expect "]"%char (skip_ws rest) with
          | Some rest' => Some (JArr [], rest')
          | None => parse_elems f [] rest
          end
        else if Ascii.eqb c "{"%char then
          match expect "}"%char (skip_ws rest) with
          | Some rest' => Some (JObj [], rest')
          | None => parse_members f [] rest
          end
        else if Ascii.eqb c dquote then
          match parse_chars rest with
          | Some (body, rest') => Some (JStr body, rest')
          | None => None
          end
        else parse_literal s'
    | EmptyString => None
    end
end
with parse_elems (fuel : nat) (acc : list json) (s : string) : option (json * string) :=
match fuel with
| O => None
| S f =>
    match parse_value f s with
    | Some (v, rest) =>
        match expect ","%char (skip_ws rest) with
        | Some rest' => parse_elems f (acc ++ [v]) rest'
        | None =>
            match expect "]"%char (skip_ws rest) with
            | Some rest' => Some (JArr (acc ++ [v]), rest')
            | None => None
            end
        end
    | None => None
    end
end
with parse_members (fuel : nat) (acc : Dict.t) (s : string) : option (json * string) :=
match fuel with
| O => None
| S f =>
    match expect dquote (skip_ws s) with
    | Some rest =>
        match parse_chars rest with
        | Some (key, rest1) =>
            match expect ":"%char (skip_ws rest1) with
            | Some rest2 =>
                match parse_value f rest2 with
                | Some (v, rest3) =>
                    match expect ","%char (skip_ws rest3) with
                    | Some rest4 => parse_members f (Dict.set key v acc) rest4
                    | None =>
                        match expect "}"%char (skip_ws rest3) with
                        | Some rest4 => Some (JObj (Dict.set key v acc), rest4)
                        | None => None
                        end
                    end
                | None => None
                end
            | None => None
            end
        | None => None
        end
    | None => None
    end
end.

Definition loads (s : string) : option json :=
  match parse_value (2 * String.length s + 2) s with
  | Some (v, rest) =>
      match skip_ws rest with
      | EmptyString => Some v
      | _ => None
      end
  | None => None
  end.


(** A text that can follow a value: the end, or a comma or a closing bracket. *)
Definition delimited (rest : string) : bool :=
  match rest with
  | EmptyString => true
  | String c _ => Ascii.eqb c ","%char || Ascii.eqb c "]"%char || Ascii.eqb c "}"%char
  end.

(** The number a run of decimal digits stands for, after [acc]. *)
Fixpoint uint_value (acc : Z) (u : Decimal.uint) : Z :=
  match u with
  | Decimal.Nil => acc
  | Decimal.D0 u' => uint_value (10 * acc + 0) u'
  | Decimal.D1 u' => uint_value (10 * acc + 1) u'
  | Decimal.D2 u' => uint_value (10 * acc + 2) u'
  | Decimal.D3 u' => uint_value (10 * acc + 3) u'
  | Decimal.D4 u' => uint_value (10 * acc + 4) u'
  | Decimal.D5 u' => uint_value (10 * acc + 5) u'
  | Decimal.D6 u' => uint_value (10 * acc + 6) u'
  | Decimal.D7 u' => uint_value (10 * acc + 7) u'
  | Decimal.D8 u' => uint_value (10 * acc + 8) u'
  | Decimal.D9 u' => uint_value (10 * acc + 9) u'
  end.

(** The text of one entry of an object. *)
Definition member (e : string * json) : string :=
  quote (fst e) +:+ ": " +:+ dumps (snd e).

(** What is proved of one value: its text, followed by a delimiter, is
    read back as the value, with fuel twice the length of the text. *)
Definition reads_back (v : json) : Prop :=
  py_valid v = true ->
  forall f rest,
    delimited rest = true ->
    (2 * String.length (dumps v +:+ rest) <= f)%nat ->
    parse_value f (dumps v +:+ rest) = Some (v, rest).

End RefJson.

(** ** Sample data *)

Definition link (id : string) (slot : Z) : json := JArr [JStr id; JInt slot].

(** A text-to-image graph: a sampler wired to a checkpoint loader and two
    text encoders. *)
Definition sample_document : json :=
  JObj
    [ ("3", JObj [ ("class_type", JStr "KSampler");
                   ("inputs", JObj [ ("seed", JInt 5); ("steps", JInt 20);
                                     ("model", link "4" 0);
                                     ("positive", link "6" 0);
                                     ("negative", link "7" 0) ]) ]);
      ("4", JObj [ ("class_type", JStr "CheckpointLoaderSimple");
                   ("inputs", JObj [ ("ckpt_name", JStr "v1-5.safetensors") ]) ]);
      ("6", JObj [ ("class_type", JStr "CLIPTextEncode");
                   ("inputs", JObj [ ("text", JStr "a cat"); ("clip", link "4" 1) ]) ]);
      ("7", JObj [ ("class_type", JStr "CLIPTextEncode");
                   ("inputs", JObj [ ("text", JStr "blurry"); ("clip", link "4" 1) ]) ]) ].

(** A sampler whose positive link names a node the graph does not have. *)
Definition dangling_document : json :=
  JObj [ ("3", JObj [ ("class_type", JStr "KSampler");
                      ("inputs", JObj [ ("positive", link "6" 0) ]) ]) ].

(** A graph with a checkpoint loader and nothing that takes a prompt. *)
Definition loader_document : json :=
  JObj [ ("4", JObj [ ("class_type", JStr "CheckpointLoaderSimple");
                      ("inputs", JObj [ ("ckpt_name", JStr "v1-5.safetensors") ]) ]) ].

Definition sample_world : World :=
  mkWorld ∅ [] (fun _ => 1000000) [].

Definition sample_workflow : Workflow :=
  mkWorkflow "txt2img.json" (Some sample_document).

(** A world whose one file is the sample document, as the codec prints it. *)
Definition stored_world : World :=
  mkWorld {[ workflow_path "txt2img" := RefJson.dumps sample_document ]}
          [] (fun _ => 7) [].

(** The one directory there is: the one the workflows are kept in. *)
Definition downloads_only (dir : string) : bool :=
  String.eqb dir DEFAULT_WORKFLOW_PATH.

(** No directory but the root and the working directory. *)
Definition no_directory (dir : string) : bool := false.

(** ** What the validator hands back *)

(** The truth value Python gives a value, as [not] and [if] take it: a
    number is true unless zero, a string, a list (or tuple) and a dict
    unless empty. *)
Definition py_truth (v : json) : bool :=
  match v with
  | JNull => false
  | JBool b => b
  | JInt z => negb (z =? 0)
  | JStr s => negb (String.eqb s EmptyString)
  | JArr [] => false
  | JArr (_ :: _) => true
  | JObj [] => false
  | JObj (_ :: _) => true
  end.

(** Modelled from the spec: validation is the ComfyUI server's own
    library call, [execution.validate_prompt], which is not in this
    file.  It answers with four things in a tuple: whether the graph is
    valid, the error if it is not, the outputs that can run and the
    errors by node. *)
Record Report : Type := mkReport {
  report_valid : bool;
  report_error : json;
  report_outputs : list json;
  report_node_errors : json
}.

(** The tuple as a value: a tuple is true or false as a list is. *)
Definition report_value (r : Report) : json :=
  JArr [ JBool (report_valid r); report_error r;
         JArr (report_outputs r); report_node_errors r ].

(** What [is_valid] returns is the tuple itself, and [__init__] takes
    [not] of it: the truth value of the whole report. *)
Definition report_truth (validate : json -> Report) (d : json) : bool :=
  py_truth (report_value (validate d)).

(** A validator that rejects every graph. *)
Definition rejecting (d : json) : Report :=
  mkReport false (JObj [ ("type", JStr "invalid_prompt") ]) [] (JObj []).

(** ** What a method may leave alone *)

(** [m] only prints: whatever it returns, it leaves the object, the
    files, the random source and the requests as they were, and calls
    [print] at most [n] times (each call adds one text to the output,
    which is several lines when the text holds a line break). *)
Definition prints_at_most {A} (n : nat) (m : M A) : Prop :=
  forall w W, exists r texts,
    m w W = (r, w, mkWorld (files W) (stdout W ++ texts) (entropy W) (sent W))
    /\ (length texts <= n)%nat.

(** [m] takes every world to one that [R] relates it to. *)
Definition preserves {A} (R : World -> World -> Prop) (m : M A) : Prop :=
  forall w W, R W (snd (m w W)).

(** From [W] to [W'] no request was sent and no file changed, but for
    the file at [path] if there is one. *)
Definition untouched (path : option string) (W W' : World) : Prop :=
  sent W' = sent W
  /\ forall q, Some q <> path -> files W' !! q = files W !! q.

(** A node with [field] set to [v] if it has that input, as the loops
    for steps and for a given seed leave it. *)
Definition field_node (field : string) (v : json) (node : json) (W : World)
  : json * World :=
  (if holds field node then with_input field v node else node, W).

(** The nodes before a position that have a seed: so many numbers have
    been drawn when the loop gets there. *)
Definition seeds_in (entries : Dict.t) : nat :=
  length (List.filter (fun e => holds "seed" (snd e)) entries).

(** Between [d] and [d'] only input [field] of node [target] changed, and
    it is now [v]. *)
Definition sets_input_only (d d' : json) (target field : string) (v : json) : Prop :=
  node_ids d' = node_ids d
  /\ input_of d' target field = Some v
  /\ (forall id, id <> target -> node_of d' id = node_of d id)
  /\ (forall f, f <> field -> input_of d' target f = input_of d target f)
  /\ (forall g, g <> "inputs" -> field_of d' target g = field_of d target g).

(** The command line with every flag dropped that [main] does not act
    on: an empty string, a zero. *)
Definition given_str (o : option string) : option string :=
  match o with
  | Some s => if String.eqb s EmptyString then None else Some s
  | None => None
  end.

Definition given_int (o : option Z) : option Z :=
  match o with
  | Some z => if z =? 0 then None else Some z
  | None => None
  end.

Definition effective_args (a : Args) : Args :=
  mkArgs (arg_workflow a) (given_str (arg_prompt a)) (given_str (arg_neg_prompt a))
         (given_int (arg_steps a)) (given_int (arg_seed a))
         (arg_port a) (arg_host a) (given_str (arg_save a)).

(** Every node of [entries] is a record with inputs, none of which is [key]. *)
Definition passed_over (key : string) (entries : Dict.t) : bool :=
  forallb (fun e => node_ok (snd e) && negb (holds key (snd e))) entries.

(** ** More sample data *)

(** Two samplers, each with its own seed, around a loader. *)
Definition two_sampler_document : json :=
  JObj
    [ ("3", JObj [ ("class_type", JStr "KSampler");
                   ("inputs", JObj [ ("seed", JInt 5); ("steps", JInt 20) ]) ]);
      ("4", JObj [ ("class_type", JStr "CheckpointLoaderSimple");
                   ("inputs", JObj [ ("ckpt_name", JStr "v1-5.safetensors") ]) ]);
      ("5", JObj [ ("class_type", JStr "KSampler");
                   ("inputs", JObj [ ("seed", JInt 6); ("steps", JInt 8) ]) ]) ].

(** A sampler whose two prompts come from one text encoder. *)
Definition shared_prompt_document : json :=
  JObj
    [ ("3", JObj [ ("class_type", JStr "KSampler");
                   ("inputs", JObj [ ("positive", link "6" 0);
                                     ("negative", link "6" 0) ]) ]);
      ("6", JObj [ ("class_type", JStr "CLIPTextEncode");
                   ("inputs", JObj [ ("text", JStr "a cat") ]) ]) ].

(** A sampler whose positive prompt comes from a node that has no text. *)
Definition textless_document : json :=
  JObj
    [ ("3", JObj [ ("class_type", JStr "KSampler");
                   ("inputs", JObj [ ("positive", link "6" 0) ]) ]);
      ("6", JObj [ ("class_type", JStr "ConditioningZeroOut");
                   ("inputs", JObj [ ("conditioning", link "3" 0) ]) ]) ].

(** A graph whose second node, a note, has no inputs at all. *)
Definition note_entries_before : Dict.t :=
  [ ("1", JObj [ ("class_type", JStr "KSampler");
                 ("inputs", JObj [ ("steps", JInt 20) ]) ]) ].

Definition note_entries_after : Dict.t :=
  [ ("3", JObj [ ("class_type", JStr "KSampler");
                 ("inputs", JObj [ ("steps", JInt 20); ("model", link "4" 0) ]) ]) ].

Definition note_fields : Dict.t := [ ("class_type", JStr "Note") ].

Definition note_document : json :=
  JObj (note_entries_before ++ ("2", JObj note_fields) :: note_entries_after).

(** A random source that counts up from 1,000,000. *)
Definition counting_world : World :=
  mkWorld ∅ [] (fun i => 1000000 + Z.of_nat i) [].

(** A world whose one file is not JSON. *)
Definition junk_world : World :=
  mkWorld {[ workflow_path "txt2img" := "not json" ]} [] (fun _ => 7) [].

Definition accept_all (d : json) : bool := true.

(** The node of a sample under an id it has. *)
Definition node_at (d : json) (id : string) : json :=
  match node_of d id with
  | Some node => node
  | None => JNull
  end.

(** * Properties *)

(** ** Dictionaries *)

Lemma dict_get_set_eq k v l : Dict.get k (Dict.set k v l) = Some v.
Proof.
  induction l as [|[k' v'] l IH]; simpl.
  - now rewrite String.eqb_refl.
  - destruct (String.eqb k k') eqn:E; simpl; rewrite E; auto.
Qed.

Lemma dict_get_set_ne k k' v l :
  k <> k' -> Dict.get k' (Dict.set k v l) = Dict.get k' l.
Proof.
  intros Hne. induction l as [|[k0 v0] l IH]; simpl.
  - apply String.eqb_neq in Hne. rewrite String.eqb_sym in Hne. now rewrite Hne.
  - destruct (String.eqb k k0) eqn:E; simpl.
    + apply String.eqb_eq in E. subst k0.
      destruct (String.eqb k' k) eqn:E'; auto.
      apply String.eqb_eq in E'. congruence.
    + now rewrite IH.
Qed.

Lemma dict_keys_set k v l :
  Dict.mem k l = true -> Dict.keys (Dict.set k v l) = Dict.keys l.
Proof.
  unfold Dict.mem. induction l as [|[k0 v0] l IH]; simpl; [discriminate|].
  destruct (String.eqb k k0) eqn:E; simpl; intros H; [reflexivity|].
  now rewrite IH.
Qed.

Lemma dict_get_app_fresh k l1 l2 :
  existsb (String.eqb k) (Dict.keys l1) = false ->
  Dict.get k (l1 ++ l2) = Dict.get k l2.
Proof.
  induction l1 as [|[k0 v0] l1 IH]; simpl; [reflexivity|].
  intros H. apply orb_false_iff in H as [E H]. rewrite E. auto.
Qed.

Lemma dict_set_app_fresh k v l1 l2 :
  existsb (String.eqb k) (Dict.keys l1) = false ->
  Dict.set k v (l1 ++ l2) = l1 ++ Dict.set k v l2.
Proof.
  induction l1 as [|[k0 v0] l1 IH]; simpl; [reflexivity|].
  intros H. apply orb_false_iff in H as [E H]. rewrite E. now rewrite IH.
Qed.

Lemma distinct_app_cons l1 k l2 :
  distinct (l1 ++ k :: l2) = true ->
  existsb (String.eqb k) l1 = false /\ distinct (l1 ++ l2) = true.
Proof.
  induction l1 as [|x l1 IH]; simpl.
  - intros H. apply andb_true_iff in H as [_ H]. auto.
  - intros H. apply andb_true_iff in H as [Hx H].
    destruct (IH H) as [Hk Hd]. rewrite Hd, andb_true_r.
    rewrite existsb_app in Hx. simpl in Hx.
    apply negb_true_iff in Hx.
    apply orb_false_iff in Hx as [Hx1 Hx2]. apply orb_false_iff in Hx2 as [Hxk Hx2].
    rewrite existsb_app, Hx1, Hx2. simpl.
    rewrite String.eqb_sym, Hxk, Hk. auto.
Qed.

(** ** Names and paths *)

Lemma ends_with_append suf s : ends_with suf (s +:+ suf) = true.
Proof.
  induction s as [|c s IH]; simpl.
  - destruct suf; simpl; [reflexivity|].
    now rewrite Ascii.eqb_refl, String.eqb_refl.
  - rewrite IH. apply orb_true_r.
Qed.

Lemma with_json_suffix_ends n : ends_with ".json" (with_json_suffix n) = true.
Proof.
  unfold with_json_suffix. destruct (ends_with ".json" n) eqn:E; simpl; auto.
  apply ends_with_append.
Qed.

Lemma with_json_suffix_idem n :
  with_json_suffix (with_json_suffix n) = with_json_suffix n.
Proof.
  unfold with_json_suffix at 1. now rewrite with_json_suffix_ends.
Qed.

(** A relative name is looked up in the fixed directory. *)
Lemma workflow_path_relative n :
  String.prefix "/" n = false ->
  path_join DEFAULT_WORKFLOW_PATH n = DEFAULT_WORKFLOW_PATH +:+ "/" +:+ n.
Proof. intros H. unfold path_join. now rewrite H. Qed.

(** ** Unsupported tones *)

(** C7: for every tone other than 'positive' and 'negative',
    [get_prompt_node_id] raises [ValueError]; the outcome is the same
    whatever the object holds (even no document at all), and the object
    and the world are left as they were. *)
Theorem get_prompt_node_id_unsupported_tone (tone : string) (w : Workflow) (W : World) :
  tone <> "positive" -> tone <> "negative" ->
  get_prompt_node_id tone w W
  = (Raise (ValueError "tone should be 'positive' or 'negative'."), w, W).
Proof.
  intros Hp Hn. unfold get_prompt_node_id. simpl.
  apply String.eqb_neq in Hp, Hn. now rewrite Hp, Hn.
Qed.

(** ** Submission *)

(** C1: [queue_prompt] builds the request and returns: whatever the
    document and the address, the world after the call is the world
    before it, so nothing has been sent. *)
Theorem queue_prompt_sends_nothing
  (json_dumps : json -> string) (server_adress : string) (w : Workflow) (W : World) :
  snd (queue_prompt json_dumps server_adress w W) = W
  /\ sent (snd (queue_prompt json_dumps server_adress w W)) = sent W.
Proof.
  unfold queue_prompt, bind, self_data, ret.
  destruct (workflow_data w); simpl; auto.
Qed.

(** ** Loading and construction *)

Section Loading.

Variable json_dumps : json -> string.
Variable json_loads : string -> option json.
Variable dir_exists : string -> bool.

(** What [load_workflow] does, case by case. *)
Lemma load_workflow_run (w : Workflow) (W : World) :
  let w' := mkWorkflow (with_json_suffix (workflow_name w)) (workflow_data w) in
  let path := workflow_path (workflow_name w) in
  load_workflow json_loads w W =
    match files W !! path with
    | None => (Raise (FileNotFoundError ("Workflow file not found: " +:+ path)), w', W)
    | Some text =>
        match json_loads text with
        | Some d => (Ok d, w', W)
        | None => (Raise JSONDecodeError, w', W)
        end
    end.
Proof.
  destruct w as [n od]. unfold workflow_path, with_json_suffix. simpl.
  unfold load_workflow, bind, self_name, set_name, ret, path_exists, read_file, raise.
  simpl. destruct (ends_with ".json" n) eqn:E; simpl;
    (destruct (files W !! _) as [text|] eqn:F;
     [ rewrite bool_decide_eq_true_2 by eauto; simpl; rewrite F;
       destruct (json_loads text); reflexivity
     | rewrite bool_decide_eq_false_2 by (intros [? ?]; discriminate); reflexivity ]).
Qed.

Lemma init_run (validate_prompt : json -> bool) (n : string) (W : World) :
  init json_loads validate_prompt n W =
    match files W !! workflow_path n with
    | None =>
        (Raise (FileNotFoundError ("Workflow file not found: " +:+ workflow_path n)), W)
    | Some text =>
        match json_loads text with
        | Some d =>
            if validate_prompt d then (Ok (mkWorkflow (with_json_suffix n) (Some d)), W)
            else (Raise (ValueError ("Workflow " +:+ with_json_suffix n +:+ " is not valid")), W)
        | None => (Raise JSONDecodeError, W)
        end
    end.
Proof.
  unfold init, bind. rewrite load_workflow_run. simpl.
  destruct (files W !! workflow_path n) as [text|]; [|reflexivity].
  destruct (json_loads text) as [d|]; [|reflexivity].
  unfold set_data, is_valid, bind, self_data, ret, self_name, raise. simpl.
  destruct (validate_prompt d); reflexivity.
Qed.

(** C5: constructing a [Workflow] fails with [FileNotFoundError] when no
    file is at the path the name stands for: no object is returned, the
    world is as before, and [main] stops there with the same error.  But
    when the file loads, no [ValueError] is raised, whatever the
    validator reports: [__init__] takes [not] of the whole report, a
    tuple of four, which is never false, so the object is returned with
    the document in it also when the report says the graph is invalid. *)
Theorem init_passes_rejected_structure (validate : json -> Report) (n : string) (W : World) :
  (files W !! workflow_path n = None ->
   let e := FileNotFoundError ("Workflow file not found: " +:+ workflow_path n) in
   init json_loads (report_truth validate) n W = (Raise e, W)
   /\ forall args, arg_workflow args = n ->
        main json_dumps json_loads (report_truth validate) dir_exists args W = (Raise e, W))
  /\ (forall text d,
        files W !! workflow_path n = Some text ->
        json_loads text = Some d ->
        init json_loads (report_truth validate) n W
        = (Ok (mkWorkflow (with_json_suffix n) (Some d)), W)).
Proof.
  split.
  - intros Hf e.
    assert (Hi : init json_loads (report_truth validate) n W = (Raise e, W)).
    { rewrite init_run, Hf. reflexivity. }
    split; [exact Hi|]. intros args <-. unfold main. now rewrite Hi.
  - intros text d Hf Hl. rewrite init_run, Hf, Hl. reflexivity.
Qed.

(** ** Saving *)

(** A file that is there can be opened again. *)
Lemma can_open_w_present (path text : string) (W : World) :
  files W !! path = Some text -> can_open_w dir_exists W path = true.
Proof.
  intros H. unfold can_open_w. rewrite bool_decide_eq_true_2 by eauto. reflexivity.
Qed.

(** The path of a workflow is never the empty path, so it can be opened
    as soon as its directory is there. *)
Lemma can_open_w_parent (path : string) (W : World) :
  path <> EmptyString ->
  parent_exists dir_exists path = true -> can_open_w dir_exists W path = true.
Proof.
  intros Hne H. unfold can_open_w. rewrite H.
  destruct (String.eqb path EmptyString) eqn:E.
  - apply String.eqb_eq in E. contradiction.
  - simpl. apply orb_true_r.
Qed.

(** What [save_workflow] does, case by case: the file can be opened and
    then holds the text of the document, or it cannot and nothing
    changes. *)
Lemma save_workflow_cases (arg : option string) (w : Workflow) (W : World) (d : json) :
  workflow_data w = Some d ->
  let n := match arg with Some n => n | None => workflow_name w end in
  save_workflow json_dumps dir_exists arg w W
  = if can_open_w dir_exists W (workflow_path n)
    then (Ok tt, w,
          mkWorld (<[workflow_path n := json_dumps d]> (files W))
                  (stdout W) (entropy W) (sent W))
    else (Raise (FileNotFoundError (workflow_path n)), w, W).
Proof.
  intros Hd. unfold save_workflow, workflow_path.
  destruct arg as [n|]; unfold bind, ret, self_name, open_w, json_dump, self_data;
    simpl; destruct (can_open_w dir_exists W _); simpl; try reflexivity;
    rewrite Hd; simpl; now rewrite insert_insert_eq.
Qed.

Lemma save_workflow_run (arg : option string) (w : Workflow) (W : World) (d : json) :
  workflow_data w = Some d ->
  let n := match arg with Some n => n | None => workflow_name w end in
  can_open_w dir_exists W (workflow_path n) = true ->
  save_workflow json_dumps dir_exists arg w W
  = (Ok tt, w,
     mkWorld (<[workflow_path n := json_dumps d]> (files W))
             (stdout W) (entropy W) (sent W)).
Proof.
  intros Hd n Ho. rewrite (save_workflow_cases arg w W d Hd). fold n. now rewrite Ho.
Qed.

(** C4: a document saved under a name, when the save returns (the file
    could be opened for writing), then loaded by an object of that name,
    comes back as it was saved, provided the JSON text of the document
    parses back to it (which is what the [json] library is for).  The
    save leaves the object as it was; the file written and the file read
    are both at the name with '.json' appended when missing; without a
    name the object's own name is used. *)
Theorem save_then_load_roundtrip
  (arg : option string) (w w1 w2 : Workflow) (W W1 : World) (d : json) :
  workflow_data w = Some d ->
  json_loads (json_dumps d) = Some d ->
  let n := match arg with Some n => n | None => workflow_name w end in
  workflow_name w2 = n ->
  save_workflow json_dumps dir_exists arg w W = (Ok tt, w1, W1) ->
  w1 = w
  /\ files W1 = <[path_join DEFAULT_WORKFLOW_PATH (with_json_suffix n) := json_dumps d]> (files W)
  /\ load_workflow json_loads w2 W1
     = (Ok d, mkWorkflow (with_json_suffix n) (workflow_data w2), W1).
Proof.
  intros Hd Hrt n Hn Hs.
  rewrite (save_workflow_cases arg w W d Hd) in Hs. fold n in Hs.
  destruct (can_open_w dir_exists W (workflow_path n)); [|discriminate].
  injection Hs as <- <-. split; [reflexivity|]. split; [reflexivity|].
  rewrite load_workflow_run. simpl. rewrite Hn.
  rewrite lookup_insert_eq, Hrt. reflexivity.
Qed.

End Loading.

(** ** The scan for a node by role *)

Lemma node_ok_inv node :
  node_ok node = true ->
  exists fields inputs,
    node = JObj fields /\ Dict.get "inputs" fields = Some (JObj inputs).
Proof.
  destruct node as [| | | |?|fields]; simpl; try discriminate.
  destruct (Dict.get "inputs" fields) as [[| | | |?|inputs]|] eqn:E; try discriminate.
  intros _. exists fields, inputs. split; [reflexivity | exact E].
Qed.

Lemma scan_links_from key done todo :
  distinct (Dict.keys (done ++ todo)) = true ->
  forallb (fun e => node_ok (snd e)) todo = true ->
  scan_links key (JObj (done ++ todo)) (map JStr (Dict.keys todo))
  = match find (fun e => holds key (snd e)) todo with
    | Some (_, node) => link_target key node
    | None => Ok None
    end.
Proof.
  revert done. induction todo as [|[k node] todo IH]; intros done Hd Hok; [reflexivity|].
  simpl in Hok. apply andb_true_iff in Hok as [Hn Hok].
  destruct (node_ok_inv _ Hn) as (fields & inputs & -> & Hin).
  unfold Dict.keys in Hd. rewrite map_app in Hd. simpl in Hd.
  destruct (distinct_app_cons _ _ _ Hd) as [Hfresh _].
  assert (Hget : inputs_at (JObj (done ++ (k, JObj fields) :: todo)) (JStr k)
                 = Ok (JObj inputs)).
  { unfold inputs_at. simpl. rewrite dict_get_app_fresh by exact Hfresh.
    simpl. rewrite String.eqb_refl. simpl. now rewrite Hin. }
  cbn [scan_links map Dict.keys fst find snd]. rewrite Hget.
  unfold holds, link_target, node_input, node_inputs. cbn [rbind py_contains].
  rewrite Hin. unfold Dict.mem.
  destruct (Dict.get key inputs) as [v|] eqn:Hk.
  - cbn [py_getitem rbind]. rewrite Hk.
    unfold link_target, node_input, node_inputs. rewrite Hin, Hk. reflexivity.
  - specialize (IH (done ++ [(k, JObj fields)])).
    rewrite <- app_assoc in IH. simpl in IH. apply IH; [|exact Hok].
    unfold Dict.keys. rewrite map_app. exact Hd.
Qed.

Lemma scan_links_document key d :
  is_workflow_document d = true ->
  (let? nodes := py_iter d in scan_links key d nodes) = found_link key d.
Proof.
  destruct d as [| | | |?|entries]; simpl; try discriminate.
  intros H. apply andb_true_iff in H as [Hd Hok].
  apply (scan_links_from key [] entries); assumption.
Qed.

(** [first_holder] is the first entry that holds the key: nothing before
    it does. *)
Lemma first_holder_split key entries id node :
  first_holder key (JObj entries) = Some (id, node) <->
  exists before after,
    entries = before ++ (id, node) :: after
    /\ holds key node = true
    /\ Forall (fun e => holds key (snd e) = false) before.
Proof.
  simpl. split.
  - induction entries as [|[k v] entries IH]; simpl; [discriminate|].
    destruct (holds key v) eqn:Hv.
    + intros [= -> ->]. exists [], entries. auto.
    + intros H. destruct (IH H) as (before & after & -> & Hn & Hb).
      exists ((k, v) :: before), after. repeat split; auto.
  - intros (before & after & -> & Hn & Hb).
    induction Hb as [|[k v] before Hk Hb IH]; simpl.
    + now rewrite Hn.
    + simpl in Hk. now rewrite Hk.
Qed.

Lemma first_holder_none key entries :
  first_holder key (JObj entries) = None <->
  Forall (fun e => holds key (snd e) = false) entries.
Proof.
  simpl. induction entries as [|[k v] entries IH]; simpl.
  - split; auto.
  - destruct (holds key v) eqn:Hv; split.
    + discriminate.
    + intros H. inversion H; subst. simpl in *. congruence.
    + intros H. constructor; [exact Hv | now apply IH].
    + intros H. inversion H; subst. now apply IH.
Qed.

Lemma get_node_id_document key w W d :
  workflow_data w = Some d ->
  is_workflow_document d = true ->
  get_node_id key w W
  = (match found_link key d with
     | Ok (Some node_id) => Ok node_id
     | Ok None => Raise (ValueError "No node found")
     | Raise e => Raise e
     end, w, W).
Proof.
  intros Hd Hwf. pose proof (scan_links_document key d Hwf) as Hs.
  unfold get_node_id, bind, self_data, lift. rewrite Hd.
  destruct (py_iter d) as [nodes|e]; simpl in Hs |- *.
  - rewrite Hs. now destruct (found_link key d) as [[?|]|].
  - now rewrite <- Hs.
Qed.

Lemma get_prompt_node_id_document tone w W d :
  workflow_data w = Some d ->
  is_workflow_document d = true ->
  tone = "positive" \/ tone = "negative" ->
  get_prompt_node_id tone w W
  = (match found_link tone d with
     | Ok (Some node_id) => Ok node_id
     | Ok None => Ok JNull
     | Raise e => Raise e
     end, w, W).
Proof.
  intros Hd Hwf Ht. pose proof (scan_links_document tone d Hwf) as Hs.
  unfold get_prompt_node_id.
  replace (existsb (String.eqb tone) ["positive"; "negative"]) with true
    by (destruct Ht; subst; reflexivity).
  unfold bind, self_data, lift. simpl. rewrite Hd.
  destruct (py_iter d) as [nodes|e]; simpl in Hs |- *.
  - rewrite Hs. now destruct (found_link tone d) as [[?|]|].
  - now rewrite <- Hs.
Qed.

(** C6: on a workflow document the scan for a key goes through the nodes
    in the order of the mapping and, at the first node whose inputs
    contain the key, returns the head of the link held there, which is
    the id of the node linked to and not the id of the holder; when no
    node's inputs contain the key, [get_node_id] raises 'No node found'
    and [get_prompt_node_id] returns [None]. *)
Theorem find_node_by_role (key : string) (w : Workflow) (W : World) (d : json) :
  workflow_data w = Some d ->
  is_workflow_document d = true ->
  (forall id node target rest,
     first_holder key d = Some (id, node) ->
     node_input key node = Some (JArr (target :: rest)) ->
     get_node_id key w W = (Ok target, w, W)
     /\ (key = "positive" \/ key = "negative" ->
         get_prompt_node_id key w W = (Ok target, w, W)))
  /\ (first_holder key d = None ->
      get_node_id key w W = (Raise (ValueError "No node found"), w, W)
      /\ (key = "positive" \/ key = "negative" ->
          get_prompt_node_id key w W = (Ok JNull, w, W))).
Proof.
  intros Hd Hwf. split.
  - intros id node target rest Hf Hin.
    assert (Hl : found_link key d = Ok (Some target)).
    { unfold found_link, link_target. rewrite Hf, Hin. reflexivity. }
    split; [|intros Ht].
    + rewrite (get_node_id_document key w W d Hd Hwf), Hl. reflexivity.
    + rewrite (get_prompt_node_id_document key w W d Hd Hwf Ht), Hl. reflexivity.
  - intros Hf.
    assert (Hl : found_link key d = Ok None).
    { unfold found_link. now rewrite Hf. }
    split; [|intros Ht].
    + rewrite (get_node_id_document key w W d Hd Hwf), Hl. reflexivity.
    + rewrite (get_prompt_node_id_document key w W d Hd Hwf Ht), Hl. reflexivity.
Qed.

(** ** Prompt updates *)

(** C9: when no node's inputs contain the tone, the prompt update prints
    its warning and returns normally, and the object (its document with
    it) is what it was; the one line printed is the only change to the
    world.  The same holds for both tones. *)
Theorem update_prompt_without_target (prompt : json) (w : Workflow) (W : World) (d : json) :
  workflow_data w = Some d ->
  is_workflow_document d = true ->
  (first_holder "positive" d = None ->
   update_positive_prompt prompt w W
   = (Ok tt, w,
      mkWorld (files W) (stdout W ++ ["No positive node found"]) (entropy W) (sent W)))
  /\ (first_holder "negative" d = None ->
      update_negative_prompt prompt w W
      = (Ok tt, w,
         mkWorld (files W) (stdout W ++ ["No negative node found"]) (entropy W) (sent W))).
Proof.
  intros Hd Hwf. split; intros Hf.
  - unfold update_positive_prompt, bind.
    rewrite (get_prompt_node_id_document "positive" w W d Hd Hwf) by auto.
    unfold found_link. rewrite Hf. reflexivity.
  - unfold update_negative_prompt, bind.
    rewrite (get_prompt_node_id_document "negative" w W d Hd Hwf) by auto.
    unfold found_link. rewrite Hf. reflexivity.
Qed.

(** C10: the store behind a found id is not guarded.  There is a document
    whose only node holds a positive link to an id the document lacks, and
    on it [update_positive_prompt] raises [KeyError] without a warning;
    and on every mapping, whenever the id found is no key of it, or is the
    key of a record without 'inputs', the update raises [KeyError] and
    leaves the object and the world as they were. *)
Theorem update_positive_prompt_dangling_link :
  (exists w W,
     workflow_data w = Some dangling_document
     /\ holds "positive" (JObj [("inputs", JObj [("positive", link "6" 0)])]) = true
     /\ node_of dangling_document "6" = None
     /\ forall prompt, update_positive_prompt prompt w W = (Raise KeyError, w, W))
  /\ (forall prompt w W entries target,
        workflow_data w = Some (JObj entries) ->
        get_prompt_node_id "positive" w W = (Ok (JStr target), w, W) ->
        (Dict.get target entries = None
         \/ exists fields, Dict.get target entries = Some (JObj fields)
                           /\ Dict.get "inputs" fields = None) ->
        update_positive_prompt prompt w W = (Raise KeyError, w, W)).
Proof.
  split.
  - exists (mkWorkflow "dangling.json" (Some dangling_document)), sample_world.
    repeat split.
  - intros prompt w W entries target Hd Hg Hdang.
    unfold update_positive_prompt, bind. rewrite Hg. simpl.
    unfold store_input, bind, self_data, lift. rewrite Hd. simpl.
    destruct Hdang as [Hn | (fields & Hn & Hi)]; rewrite Hn; simpl; [reflexivity|].
    now rewrite Hi.
Qed.

(** *** Storing an input *)

Lemma with_input_ok field v node :
  node_ok node = true -> node_ok (with_input field v node) = true.
Proof.
  intros H. destruct (node_ok_inv _ H) as (fields & inputs & -> & Hin).
  simpl. rewrite Hin. simpl. now rewrite dict_get_set_eq.
Qed.

Lemma with_input_inputs field v node inputs :
  node_inputs node = Some inputs ->
  node_inputs (with_input field v node) = Some (Dict.set field v inputs).
Proof.
  destruct node as [| | | |?|fields]; simpl; try discriminate.
  destruct (Dict.get "inputs" fields) as [[| | | |?|inputs']|] eqn:E; try discriminate.
  intros [= ->]. simpl. now rewrite dict_get_set_eq.
Qed.

Lemma node_ok_inputs node :
  node_ok node = true -> exists inputs, node_inputs node = Some inputs.
Proof.
  intros H. destruct (node_ok_inv _ H) as (fields & inputs & -> & Hin).
  exists inputs. simpl. now rewrite Hin.
Qed.

Lemma with_input_same field v node :
  node_ok node = true -> node_input field (with_input field v node) = Some v.
Proof.
  intros H. destruct (node_ok_inputs _ H) as [inputs Hin].
  unfold node_input. rewrite (with_input_inputs _ _ _ _ Hin).
  apply dict_get_set_eq.
Qed.

Lemma with_input_other field field' v node :
  field <> field' ->
  node_input field' (with_input field v node) = node_input field' node.
Proof.
  intros Hne. unfold node_input.
  destruct (node_inputs node) as [inputs|] eqn:Hin.
  - rewrite (with_input_inputs _ _ _ _ Hin). now apply dict_get_set_ne.
  - destruct node as [| | | |?|fields]; simpl in *; try reflexivity.
    destruct (Dict.get "inputs" fields) as [[| | | |?|?]|] eqn:E;
      simpl; rewrite ?E; try reflexivity; discriminate.
Qed.

Lemma dict_get_forallb (P : json -> bool) k v l :
  Dict.get k l = Some v -> forallb (fun e => P (snd e)) l = true -> P v = true.
Proof.
  induction l as [|[k0 v0] l IH]; simpl; [discriminate|].
  intros Hg H. apply andb_true_iff in H as [H0 H].
  destruct (String.eqb k k0); [now injection Hg as <- | auto].
Qed.

Lemma forallb_dict_set (P : json -> bool) k v l :
  P v = true ->
  forallb (fun e => P (snd e)) l = true ->
  forallb (fun e => P (snd e)) (Dict.set k v l) = true.
Proof.
  intros Hv. induction l as [|[k0 v0] l IH]; simpl.
  - now rewrite Hv.
  - intros H. apply andb_true_iff in H as [H0 H].
    destruct (String.eqb k k0); simpl.
    + now rewrite Hv.
    + now rewrite H0, IH.
Qed.

Lemma document_set_node id node' entries :
  is_workflow_document (JObj entries) = true ->
  Dict.mem id entries = true ->
  node_ok node' = true ->
  is_workflow_document (JObj (Dict.set id node' entries)) = true.
Proof.
  simpl. intros H Hm Hn. apply andb_true_iff in H as [Hd Hok].
  rewrite (dict_keys_set _ _ _ Hm), Hd. simpl.
  now apply forallb_dict_set.
Qed.

(** Replacing a node by one that holds the same under [key] does not
    change what the scan for [key] finds. *)
Lemma found_link_set key id node node' entries :
  Dict.get id entries = Some node ->
  node_input key node' = node_input key node ->
  found_link key (JObj (Dict.set id node' entries)) = found_link key (JObj entries).
Proof.
  intros Hg Hsame. unfold found_link. simpl.
  induction entries as [|[k0 v0] entries IH]; simpl in *; [discriminate|].
  destruct (String.eqb id k0) eqn:E; simpl.
  - injection Hg as ->. unfold holds, link_target. rewrite Hsame.
    destruct (node_input key node) eqn:En; simpl; rewrite ?Hsame, ?En; reflexivity.
  - destruct (holds key v0); [reflexivity | auto].
Qed.

Lemma store_input_run id field v w W entries node :
  workflow_data w = Some (JObj entries) ->
  Dict.get id entries = Some node ->
  node_ok node = true ->
  store_input (JStr id) field v w W
  = (Ok tt,
     mkWorkflow (workflow_name w) (Some (JObj (Dict.set id (with_input field v node) entries))),
     W).
Proof.
  intros Hd Hg Hn. destruct (node_ok_inv _ Hn) as (fields & inputs & -> & Hin).
  unfold store_input, bind, self_data, lift, set_data. rewrite Hd. simpl.
  rewrite Hg. simpl. rewrite Hin. reflexivity.
Qed.

Lemma load_input_run id field w W d :
  workflow_data w = Some d ->
  load_input id field w W
  = ((let? inputs := inputs_at d id in py_getitem inputs (JStr field)), w, W).
Proof.
  intros Hd. unfold load_input, bind, self_data, lift. now rewrite Hd.
Qed.

Lemma read_stored_input id field v node entries :
  node_ok node = true ->
  (let? inputs := inputs_at (JObj (Dict.set id (with_input field v node) entries)) (JStr id)
   in py_getitem inputs (JStr field))
  = Ok v.
Proof.
  intros Hn. destruct (node_ok_inv _ Hn) as (fields & inputs & -> & Hin).
  unfold inputs_at. simpl. rewrite dict_get_set_eq. simpl. rewrite Hin. simpl.
  rewrite dict_get_set_eq. simpl. now rewrite dict_get_set_eq.
Qed.

(** C8: on a workflow document whose first holder of 'positive' links to a
    node of the document (and whose 'negative' input, where there is one,
    is a link), [update_positive_prompt p] returns normally, the linked
    node's 'text' input is then [p], and [show_prompts] next prints
    'Positive prompt: ' followed by [p] before anything else. *)
Theorem update_positive_prompt_then_show
  (py_repr : json -> string) (p : string) (w : Workflow) (W : World)
  (d : json) (id : string) (node : json) (target : string) (rest : list json) :
  workflow_data w = Some d ->
  is_workflow_document d = true ->
  first_holder "positive" d = Some (id, node) ->
  node_input "positive" node = Some (JArr (JStr target :: rest)) ->
  node_of d target <> None ->
  linked "negative" d = true ->
  exists d',
    let w' := mkWorkflow (workflow_name w) (Some d') in
    update_positive_prompt (JStr p) w W = (Ok tt, w', W)
    /\ input_of d' target "text" = Some (JStr p)
    /\ exists res more,
         show_prompts py_repr w' W
         = (res, w',
            mkWorld (files W) (stdout W ++ ("Positive prompt: " +:+ p) :: more)
                    (entropy W) (sent W)).
Proof.
  intros Hd Hwf Hf Hin Hpresent Hneg.
  destruct d as [| | | |?|entries]; try discriminate.
  simpl in Hpresent.
  destruct (Dict.get target entries) as [tnode|] eqn:Hg; [clear Hpresent|congruence].
  assert (Hok : node_ok tnode = true).
  { simpl in Hwf. apply andb_true_iff in Hwf as [_ Hall].
    exact (dict_get_forallb node_ok _ _ _ Hg Hall). }
  assert (Hpos : found_link "positive" (JObj entries) = Ok (Some (JStr target))).
  { unfold found_link, link_target. rewrite Hf, Hin. reflexivity. }
  set (tnode' := with_input "text" (JStr p) tnode).
  set (d' := JObj (Dict.set target tnode' entries)).
  exists d'. cbv zeta. set (w' := mkWorkflow (workflow_name w) (Some d')).
  assert (Hupd : update_positive_prompt (JStr p) w W = (Ok tt, w', W)).
  { unfold update_positive_prompt, bind.
    rewrite (get_prompt_node_id_document "positive" w W _ Hd Hwf) by auto.
    rewrite Hpos. simpl. now apply store_input_run. }
  split; [exact Hupd|]. split.
  { unfold input_of, d', tnode'. simpl. rewrite dict_get_set_eq.
    now apply with_input_same. }
  assert (Hd' : workflow_data w' = Some d') by reflexivity.
  assert (Hwf' : is_workflow_document d' = true).
  { apply document_set_node; [exact Hwf | | now apply with_input_ok].
    unfold Dict.mem. now rewrite Hg. }
  assert (Hpos' : found_link "positive" d' = Ok (Some (JStr target))).
  { unfold d'. rewrite (found_link_set "positive" target tnode); auto.
    apply with_input_other. discriminate. }
  assert (Hneg' : found_link "negative" d' = found_link "negative" (JObj entries)).
  { unfold d'. apply (found_link_set "negative" target tnode); auto.
    apply with_input_other. discriminate. }
  assert (Hnl : exists o, found_link "negative" (JObj entries) = Ok o).
  { unfold found_link, linked in *.
    destruct (first_holder "negative" (JObj entries)) as [[id2 node2]|] eqn:Hf2;
      [|eauto].
    unfold link_target.
    destruct (node_input "negative" node2) as [[| | | |[|t2 rest2]|?]|];
      try discriminate.
    simpl. eauto. }
  destruct Hnl as [o Hnl]. rewrite Hnl in Hneg'.
  unfold show_prompts, bind.
  rewrite (get_prompt_node_id_document "positive" w' W _ Hd' Hwf') by auto.
  rewrite Hpos'.
  rewrite (get_prompt_node_id_document "negative" w' W _ Hd' Hwf') by auto.
  rewrite Hneg'. cbn [is_none negb].
  rewrite (load_input_run (JStr target) "text" w' W d' Hd').
  unfold d' at 1, tnode'. rewrite (read_stored_input target "text" (JStr p) tnode entries Hok).
  cbn [py_str]. unfold print at 1. cbn [files stdout entropy sent].
  destruct o as [nid|]; cbn [is_none negb]; [destruct (is_none nid); cbn [negb]|].
  - unfold ret. eexists _, []. reflexivity.
  - rewrite (load_input_run nid "text" w' _ d' Hd').
    destruct (let? inputs := inputs_at d' nid in py_getitem inputs (JStr "text"))
      as [text|e].
    + unfold print. cbn [files stdout entropy sent].
      eexists _, [_]. rewrite <- app_assoc. reflexivity.
    + eexists _, []. reflexivity.
  - unfold ret. eexists _, []. reflexivity.
Qed.

(** ** The update loops *)

Lemma dict_set_same k v l : Dict.get k l = Some v -> Dict.set k v l = l.
Proof.
  induction l as [|[k0 v0] l IH]; simpl; [discriminate|].
  destruct (String.eqb k k0) eqn:E.
  - now intros [= ->].
  - intros H. now rewrite IH.
Qed.

Section Loop.

Variable body : json -> M unit.
Variable upd : json -> World -> json * World.
Variable n : string.

(** One round of the loop on a node of the document does [upd] to it. *)
Hypothesis body_upd :
  forall k node entries W,
    Dict.get k entries = Some node ->
    node_ok node = true ->
    body (JStr k) (mkWorkflow n (Some (JObj entries))) W
    = (Ok tt,
       mkWorkflow n (Some (JObj (Dict.set k (fst (upd node W)) entries))),
       snd (upd node W)).

Lemma for_each_nodes_from todo :
  forall done W,
    distinct (Dict.keys (done ++ todo)) = true ->
    forallb (fun e => node_ok (snd e)) todo = true ->
    for_each (map JStr (Dict.keys todo)) body
             (mkWorkflow n (Some (JObj (done ++ todo)))) W
    = (Ok tt,
       mkWorkflow n (Some (JObj (done ++ fst (map_nodes upd todo W)))),
       snd (map_nodes upd todo W)).
Proof.
  induction todo as [|[k node] todo IH]; intros done W Hd Hok; [reflexivity|].
  simpl in Hok. apply andb_true_iff in Hok as [Hn Hok].
  assert (Hfresh : existsb (String.eqb k) (Dict.keys done) = false).
  { unfold Dict.keys in Hd. rewrite map_app in Hd. simpl in Hd.
    now destruct (distinct_app_cons _ _ _ Hd). }
  cbn [Dict.keys map fst for_each]. unfold bind.
  rewrite (body_upd k node).
  2: { rewrite dict_get_app_fresh by exact Hfresh. simpl.
       now rewrite String.eqb_refl. }
  2: exact Hn.
  rewrite dict_set_app_fresh by exact Hfresh.
  cbn [Dict.set]. rewrite String.eqb_refl.
  cbn [map_nodes]. destruct (upd node W) as [node' W1]. cbn [fst snd].
  specialize (IH (done ++ [(k, node')]) W1).
  rewrite <- !app_assoc in IH. cbn [app] in IH.
  fold (Dict.keys todo). rewrite IH.
  - destruct (map_nodes upd todo W1) as [rest' W2]. reflexivity.
  - unfold Dict.keys in *. rewrite map_app in *. exact Hd.
  - exact Hok.
Qed.

Lemma for_each_nodes entries W :
  is_workflow_document (JObj entries) = true ->
  for_each (map JStr (Dict.keys entries)) body
           (mkWorkflow n (Some (JObj entries))) W
  = (Ok tt,
     mkWorkflow n (Some (JObj (fst (map_nodes upd entries W)))),
     snd (map_nodes upd entries W)).
Proof.
  simpl. intros H. apply andb_true_iff in H as [Hd Hok].
  exact (for_each_nodes_from entries [] W Hd Hok).
Qed.

(** What relates every node to its update relates the documents, id by id. *)
Variable R : json -> json -> Prop.
Hypothesis upd_R : forall node W, R node (fst (upd node W)).

Lemma map_nodes_keys entries W :
  Dict.keys (fst (map_nodes upd entries W)) = Dict.keys entries.
Proof.
  revert W. induction entries as [|[k node] entries IH]; intros W; [reflexivity|].
  simpl. destruct (upd node W) as [node' W1]. specialize (IH W1).
  destruct (map_nodes upd entries W1). simpl in *. now rewrite IH.
Qed.

Lemma map_nodes_get entries W id :
  match Dict.get id entries with
  | Some node =>
      exists node', Dict.get id (fst (map_nodes upd entries W)) = Some node'
                    /\ R node node'
  | None => Dict.get id (fst (map_nodes upd entries W)) = None
  end.
Proof.
  revert W. induction entries as [|[k node] entries IH]; intros W; [reflexivity|].
  simpl. pose proof (upd_R node W) as HR.
  destruct (upd node W) as [node' W1]. specialize (IH W1).
  destruct (map_nodes upd entries W1) as [rest' W2]. simpl in *.
  destruct (String.eqb id k); [eauto | exact IH].
Qed.

End Loop.

Lemma map_nodes_world upd entries W :
  (forall node W, snd (upd node W) = W) ->
  snd (map_nodes upd entries W) = W.
Proof.
  intros Hupd. induction entries as [|[k node] entries IH]; [reflexivity|].
  simpl. pose proof (Hupd node W) as H1.
  destruct (upd node W) as [node' W1]. simpl in H1. subst W1.
  destruct (map_nodes upd entries W). exact IH.
Qed.

Lemma holds_mem key node inputs :
  node_inputs node = Some inputs -> holds key node = Dict.mem key inputs.
Proof. intros H. unfold holds, node_input, Dict.mem. now rewrite H. Qed.

Lemma update_steps_body steps name k node entries W :
  Dict.get k entries = Some node ->
  node_ok node = true ->
  (d <- self_data ;;
   inputs <- lift (inputs_at d (JStr k)) ;;
   found <- lift (py_contains "steps" inputs) ;;
   if found then store_input (JStr k) "steps" steps else ret tt)
    (mkWorkflow name (Some (JObj entries))) W
  = (Ok tt,
     mkWorkflow name (Some (JObj (Dict.set k (fst (steps_node steps node W)) entries))),
     snd (steps_node steps node W)).
Proof.
  intros Hg Hn. destruct (node_ok_inv _ Hn) as (fields & inputs & Hnode & Hin).
  assert (Hni : node_inputs node = Some inputs) by (subst; simpl; now rewrite Hin).
  unfold steps_node. rewrite (holds_mem _ _ _ Hni). cbn [fst snd].
  unfold bind at 1, self_data at 1. cbn [workflow_data].
  unfold bind at 1, lift at 1, inputs_at. cbn [py_getitem rbind]. rewrite Hg.
  subst node. cbn [py_getitem rbind]. rewrite Hin.
  unfold bind at 1, lift at 1. cbn [py_contains].
  destruct (Dict.mem "steps" inputs).
  - now apply store_input_run.
  - unfold ret. now rewrite (dict_set_same _ _ _ Hg).
Qed.

Lemma update_seed_body name k node entries W :
  Dict.get k entries = Some node ->
  node_ok node = true ->
  (d <- self_data ;;
   inputs <- lift (inputs_at d (JStr k)) ;;
   found <- lift (py_contains "seed" inputs) ;;
   if found then
     r <- randint 0 1000000 ;;
     store_input (JStr k) "seed" (JInt r)
   else ret tt)
    (mkWorkflow name (Some (JObj entries))) W
  = (Ok tt,
     mkWorkflow name (Some (JObj (Dict.set k (fst (drawn_seed_node node W)) entries))),
     snd (drawn_seed_node node W)).
Proof.
  intros Hg Hn. destruct (node_ok_inv _ Hn) as (fields & inputs & Hnode & Hin).
  assert (Hni : node_inputs node = Some inputs) by (subst; simpl; now rewrite Hin).
  unfold drawn_seed_node. rewrite (holds_mem _ _ _ Hni).
  unfold bind at 1, self_data at 1. cbn [workflow_data].
  unfold bind at 1, lift at 1, inputs_at. cbn [py_getitem rbind]. rewrite Hg.
  subst node. cbn [py_getitem rbind]. rewrite Hin.
  unfold bind at 1, lift at 1. cbn [py_contains].
  destruct (Dict.mem "seed" inputs); cbn [fst snd].
  - unfold bind, randint. cbn [Z.ltb Z.compare].
    now apply store_input_run.
  - unfold ret. now rewrite (dict_set_same _ _ _ Hg).
Qed.

Lemma with_input_field field v node g :
  g <> "inputs" ->
  match with_input field v node with
  | JObj fields' => Dict.get g fields'
  | _ => None
  end
  = match node with
    | JObj fields => Dict.get g fields
    | _ => None
    end.
Proof.
  intros Hg. destruct node as [| | | |?|fields]; simpl; try reflexivity.
  destruct (Dict.get "inputs" fields) as [[| | | |?|inputs]|]; try reflexivity.
  apply dict_get_set_ne. congruence.
Qed.

Lemma holds_false key node : holds key node = false <-> node_input key node = None.
Proof. unfold holds. destruct (node_input key node); split; congruence. Qed.

Lemma update_steps_run (steps : json) (w : Workflow) (W : World) (entries : Dict.t) :
  workflow_data w = Some (JObj entries) ->
  is_workflow_document (JObj entries) = true ->
  update_steps steps w W
  = (Ok tt,
     mkWorkflow (workflow_name w)
                (Some (JObj (fst (map_nodes (steps_node steps) entries W)))),
     W).
Proof.
  intros Hd Hwf. destruct w as [name od]. simpl in Hd. subst od.
  unfold update_steps. unfold bind at 1, self_data at 1. cbn [workflow_data].
  unfold bind at 1, lift at 1. cbn [py_iter workflow_name].
  rewrite (for_each_nodes _ (steps_node steps) name
             (update_steps_body steps name) entries W Hwf).
  now rewrite map_nodes_world.
Qed.

(** C3: on a workflow document [update_steps n] returns normally and
    touches nothing but the document; it keeps the node ids, sets 'steps'
    to [n] in every node that had a 'steps' input, leaves every node
    without one exactly as it was, and in every node leaves all other
    inputs and all fields besides 'inputs' unchanged. *)
Theorem update_steps_sets_steps_only (n : Z) (w : Workflow) (W : World) (d : json) :
  workflow_data w = Some d ->
  is_workflow_document d = true ->
  exists d',
    update_steps (JInt n) w W = (Ok tt, mkWorkflow (workflow_name w) (Some d'), W)
    /\ node_ids d' = node_ids d
    /\ forall id,
         (input_of d id "steps" <> None -> input_of d' id "steps" = Some (JInt n))
         /\ (input_of d id "steps" = None -> node_of d' id = node_of d id)
         /\ (forall field, field <> "steps" ->
                           input_of d' id field = input_of d id field)
         /\ (forall field, field <> "inputs" ->
                           field_of d' id field = field_of d id field).
Proof.
  intros Hd Hwf. destruct d as [| | | |?|entries]; try discriminate.
  exists (JObj (fst (map_nodes (steps_node (JInt n)) entries W))).
  split; [now apply update_steps_run|].
  split; [apply map_nodes_keys|].
  intros id. unfold input_of, field_of, node_of.
  pose proof (map_nodes_get (steps_node (JInt n))
                (fun node node' =>
                   node' = if holds "steps" node
                           then with_input "steps" (JInt n) node else node)
                (fun node W => eq_refl) entries W id) as Hget.
  destruct (Dict.get id entries) as [node|] eqn:Hg.
  - destruct Hget as (node' & -> & ->).
    assert (Hok : node_ok node = true).
    { simpl in Hwf. apply andb_true_iff in Hwf as [_ Hall].
      exact (dict_get_forallb node_ok _ _ _ Hg Hall). }
    destruct (holds "steps" node) eqn:Hh.
    + repeat split.
      * intros _. now apply with_input_same.
      * intros Hnone. apply holds_false in Hnone. congruence.
      * intros field Hf. apply with_input_other. congruence.
      * intros field Hf. now apply with_input_field.
    + repeat split; auto.
      intros Hsome. apply holds_false in Hh. contradiction.
  - rewrite Hget. repeat split; auto. congruence.
Qed.

(** ** Seeds *)

Lemma update_seed_random_run (w : Workflow) (W : World) (entries : Dict.t) :
  workflow_data w = Some (JObj entries) ->
  is_workflow_document (JObj entries) = true ->
  update_seed (JInt (-1)) w W
  = (Ok tt,
     mkWorkflow (workflow_name w)
                (Some (JObj (fst (map_nodes drawn_seed_node entries W)))),
     snd (map_nodes drawn_seed_node entries W)).
Proof.
  intros Hd Hwf. destruct w as [name od]. simpl in Hd. subst od.
  unfold update_seed. unfold bind at 1, self_data at 1. cbn [workflow_data].
  unfold bind at 1, lift at 1. cbn [py_iter workflow_name].
  exact (for_each_nodes _ drawn_seed_node name (update_seed_body name) entries W Hwf).
Qed.

(** C2, as the code has it: on a workflow document [update_seed (-1)]
    returns normally and gives every node that had a 'seed' input an
    integer seed between 0 and 1,000,000, both ends included. *)
Theorem update_seed_random_range (w : Workflow) (W : World) (d : json) :
  workflow_data w = Some d ->
  is_workflow_document d = true ->
  exists d' W',
    update_seed (JInt (-1)) w W = (Ok tt, mkWorkflow (workflow_name w) (Some d'), W')
    /\ forall id,
         input_of d id "seed" <> None ->
         exists z, input_of d' id "seed" = Some (JInt z) /\ 0 <= z <= 1000000.
Proof.
  intros Hd Hwf. destruct d as [| | | |?|entries]; try discriminate.
  exists (JObj (fst (map_nodes drawn_seed_node entries W))),
         (snd (map_nodes drawn_seed_node entries W)).
  split; [now apply update_seed_random_run|].
  intros id. unfold input_of, node_of.
  pose proof (map_nodes_get drawn_seed_node
                (fun node node' =>
                   holds "seed" node = true ->
                   exists z, node' = with_input "seed" (JInt z) node
                             /\ 0 <= z <= 1000000)) as Hget.
  specialize (Hget ltac:(
    intros node W0 Hh; unfold drawn_seed_node; rewrite Hh; eexists; split;
    [reflexivity | pose proof (Z.mod_pos_bound (entropy W0 0%nat) (1000000 - 0 + 1));
                   lia]) entries W id).
  destruct (Dict.get id entries) as [node|] eqn:Hg; [|congruence].
  destruct Hget as (node' & -> & HR). intros Hsome.
  assert (Hok : node_ok node = true).
  { simpl in Hwf. apply andb_true_iff in Hwf as [_ Hall].
    exact (dict_get_forallb node_ok _ _ _ Hg Hall). }
  destruct (holds "seed" node) eqn:Hh.
  - destruct (HR eq_refl) as (z & -> & Hz). exists z. split; [|exact Hz].
    now apply with_input_same.
  - apply holds_false in Hh. contradiction.
Qed.

(** ** The reference codec reads back what it prints *)

Module RefJsonFacts.
Import RefJson.

Lemma append_nil (b : string) : EmptyString +:+ b = b.
Proof. reflexivity. Qed.

Lemma append_cons (x : ascii) (a b : string) : String x a +:+ b = String x (a +:+ b).
Proof. reflexivity. Qed.

Lemma append_assoc (a b c : string) : (a +:+ b) +:+ c = a +:+ (b +:+ c).
Proof.
  induction a as [|x a IH]; [reflexivity|].
  rewrite !append_cons. now rewrite IH.
Qed.

Lemma length_append (a b : string) :
  String.length (a +:+ b) = (String.length a + String.length b)%nat.
Proof.
  induction a as [|x a IH]; [reflexivity|].
  rewrite append_cons. simpl. now rewrite IH.
Qed.

Ltac norm_app :=
  repeat (rewrite append_assoc || rewrite append_cons || rewrite append_nil).
Ltac norm_app_in H :=
  repeat (rewrite append_assoc in H || rewrite append_cons in H || rewrite append_nil in H).

(** *** String literals *)

Lemma parse_escape_char c rest :
  parse_chars (escape_char c +:+ rest) = push c (parse_chars rest).
Proof. destruct c as [[] [] [] [] [] [] [] []]; reflexivity. Qed.

Lemma parse_escape s rest :
  parse_chars (escape s +:+ String dquote rest) = Some (s, rest).
Proof.
  induction s as [|c s IH]; [reflexivity|].
  simpl. rewrite append_assoc, parse_escape_char, IH. reflexivity.
Qed.

Lemma parse_quote s rest :
  expect dquote (quote s +:+ rest) = Some (escape s +:+ String dquote rest)
  /\ parse_chars (escape s +:+ String dquote rest) = Some (s, rest).
Proof.
  split; [|apply parse_escape].
  unfold quote. norm_app. simpl. reflexivity.
Qed.

(** *** Numbers *)

Lemma delimited_cases rest :
  delimited rest = true ->
  rest = EmptyString \/ exists c r, rest = String c r /\ (c = "," \/ c = "]" \/ c = "}")%char.
Proof.
  destruct rest as [|c r]; [auto|]. simpl. intros H. right. exists c, r. split; [reflexivity|].
  apply orb_true_iff in H as [H|H]; [apply orb_true_iff in H as [H|H]|];
    apply Ascii.eqb_eq in H; auto.
Qed.

Lemma parse_digits_uint u acc rest :
  delimited rest = true ->
  parse_digits acc (NilEmpty.string_of_uint u +:+ rest) = (uint_value acc u, rest).
Proof.
  intros Hrest. revert acc.
  induction u; intros acc; simpl; rewrite ?append_cons, ?append_nil;
    try (cbn [parse_digits]; apply IHu).
  destruct (delimited_cases _ Hrest) as [->|(c & r & -> & [->|[->| ->]])]; reflexivity.
Qed.

Lemma uint_value_acc u (acc : positive) :
  uint_value (Zpos acc) u = Zpos (Pos.of_uint_acc u acc).
Proof.
  revert acc. induction u; intros acc; cbn [uint_value Pos.of_uint_acc];
    [reflexivity | rewrite <- IHu; f_equal; lia ..].
Qed.

Lemma uint_value_of_uint u : uint_value 0 u = Z.of_N (Pos.of_uint u).
Proof.
  induction u; cbn [uint_value Pos.of_uint]; try exact IHu; try reflexivity;
    cbn [Z.of_N]; rewrite <- uint_value_acc; reflexivity.
Qed.

Lemma to_uint_value p : uint_value 0 (Pos.to_uint p) = Zpos p.
Proof. rewrite uint_value_of_uint, DecimalPos.Unsigned.of_to. reflexivity. Qed.

(** The decimal digits of a positive number start with a digit from 1 to 9. *)
Lemma to_uint_head p :
  Pos.to_uint p <> Decimal.Nil /\ forall u, Pos.to_uint p <> Decimal.D0 u.
Proof.
  split; [apply DecimalPos.Unsigned.to_uint_nonnil|].
  intros u Hu.
  pose proof (DecimalPos.Unsigned.to_of (Pos.to_uint p)) as H.
  rewrite DecimalPos.Unsigned.of_to in H. simpl in H.
  unfold Decimal.unorm in H.
  destruct (Decimal.nzhead (Pos.to_uint p)) eqn:E;
    [ exact (DecimalPos.Unsigned.to_uint_nonzero p H)
    | exact (DecimalFacts.nzhead_nonzero _ _ E)
    | rewrite H in Hu; discriminate .. ].
Qed.

Lemma delimited_not_float rest : delimited rest = true -> float_follows rest = false.
Proof.
  intros H. destruct (delimited_cases _ H) as [->|(c & r & -> & [->|[->| ->]])]; reflexivity.
Qed.

Lemma parse_nat_uint u rest :
  u <> Decimal.Nil -> (forall u', u <> Decimal.D0 u') ->
  delimited rest = true ->
  parse_nat (NilEmpty.string_of_uint u +:+ rest) = Some (uint_value 0 u, rest).
Proof.
  intros Hnil Hzero Hrest.
  destruct u; try congruence; try (now exfalso; eapply Hzero);
    cbn [NilEmpty.string_of_uint]; rewrite append_cons;
    cbn [parse_nat digit]; cbv [N_of_ascii N_of_digits]; simpl;
    rewrite parse_digits_uint by exact Hrest; reflexivity.
Qed.

Lemma parse_number_int z rest :
  delimited rest = true ->
  parse_number (string_of_Z z +:+ rest) = Some (JInt z, rest).
Proof.
  intros Hrest. pose proof (delimited_not_float _ Hrest) as Hf.
  unfold string_of_Z. destruct z as [|p|p]; cbn [Z.to_int NilZero.string_of_int].
  - cbn. destruct (delimited_cases _ Hrest) as [->|(c & r & -> & [->|[->| ->]])]; reflexivity.
  - destruct (to_uint_head p) as [Hnil Hzero].
    assert (Hs : NilZero.string_of_uint (Pos.to_uint p)
                 = NilEmpty.string_of_uint (Pos.to_uint p)).
    { destruct (Pos.to_uint p); congruence || reflexivity. }
    rewrite Hs. unfold parse_number.
    pose proof (parse_nat_uint _ rest Hnil Hzero Hrest) as Hp.
    destruct (Pos.to_uint p) eqn:E; try congruence; try (now exfalso; eapply Hzero);
      cbn [NilEmpty.string_of_uint] in *; rewrite append_cons in *;
      rewrite Hp, Hf; rewrite <- E, to_uint_value; reflexivity.
  - destruct (to_uint_head p) as [Hnil Hzero].
    assert (Hs : NilZero.string_of_uint (Pos.to_uint p)
                 = NilEmpty.string_of_uint (Pos.to_uint p)).
    { destruct (Pos.to_uint p); congruence || reflexivity. }
    rewrite Hs, append_cons. unfold parse_number.
    rewrite (parse_nat_uint _ rest Hnil Hzero Hrest), Hf, to_uint_value. reflexivity.
Qed.

(** *** Values *)

Lemma append_nil_r (a : string) : a +:+ EmptyString = a.
Proof.
  induction a as [|x a IH]; [reflexivity|]. rewrite append_cons. now rewrite IH.
Qed.

Lemma parse_value_space f s : parse_value f (String " " s) = parse_value f s.
Proof. destruct f; reflexivity. Qed.

Lemma parse_elems_space f acc s : parse_elems f acc (String " " s) = parse_elems f acc s.
Proof. destruct f; [reflexivity|]. cbn [parse_elems]. now rewrite parse_value_space. Qed.

Lemma parse_members_space f acc s :
  parse_members f acc (String " " s) = parse_members f acc s.
Proof. destruct f; reflexivity. Qed.

Lemma parse_value_bracket f X :
  parse_value (S f) (String "[" X)
  = match expect "]" (skip_ws X) with
    | Some r => Some (JArr [], r)
    | None => parse_elems f [] X
    end.
Proof. reflexivity. Qed.

Lemma parse_value_brace f X :
  parse_value (S f) (String "{" X)
  = match expect "}" (skip_ws X) with
    | Some r => Some (JObj [], r)
    | None => parse_members f [] X
    end.
Proof. reflexivity. Qed.

Lemma parse_value_quote f X :
  parse_value (S f) (String dquote X)
  = match parse_chars X with
    | Some (body, r) => Some (JStr body, r)
    | None => None
    end.
Proof. reflexivity. Qed.

Lemma parse_elems_step f acc s :
  parse_elems (S f) acc s
  = match parse_value f s with
    | Some (v, rest) =>
        match expect "," (skip_ws rest) with
        | Some r => parse_elems f (acc ++ [v]) r
        | None =>
            match expect "]" (skip_ws rest) with
            | Some r => Some (JArr (acc ++ [v]), r)
            | None => None
            end
        end
    | None => None
    end.
Proof. reflexivity. Qed.

Lemma parse_members_quote f acc X :
  parse_members (S f) acc (String dquote X)
  = match parse_chars X with
    | Some (key, rest1) =>
        match expect ":" (skip_ws rest1) with
        | Some rest2 =>
            match parse_value f rest2 with
            | Some (v, rest3) =>
                match expect "," (skip_ws rest3) with
                | Some r => parse_members f (Dict.set key v acc) r
                | None =>
                    match expect "}" (skip_ws rest3) with
                    | Some r => Some (JObj (Dict.set key v acc), r)
                    | None => None
                    end
                end
            | None => None
            end
        | None => None
        end
    | None => None
    end.
Proof. reflexivity. Qed.

(** The text of an integer starts with a digit or a minus sign, and is
    read as a number. *)
Lemma parse_value_int f z rest :
  parse_value (S f) (string_of_Z z +:+ rest) = parse_number (string_of_Z z +:+ rest)
  /\ exists c s, string_of_Z z +:+ rest = String c s
                 /\ is_ws c = false /\ Ascii.eqb c "]" = false.
Proof.
  unfold string_of_Z. destruct z as [|p|p]; cbn [Z.to_int NilZero.string_of_int].
  - split; [reflexivity|]. eexists _, _. repeat split.
  - destruct (to_uint_head p) as [Hnil Hzero].
    destruct (Pos.to_uint p); try congruence; try (now exfalso; eapply Hzero);
      (split; [reflexivity|]; eexists _, _; repeat split).
  - split; [reflexivity|]. eexists _, _. repeat split.
Qed.

Lemma dumps_head v rest :
  exists c s, dumps v +:+ rest = String c s /\ is_ws c = false /\ Ascii.eqb c "]" = false.
Proof.
  destruct v as [|[]|z|s|items|entries]; try (eexists _, _; repeat split; fail).
  destruct (parse_value_int 0 z rest) as [_ H]. exact H.
Qed.

Lemma dict_set_fresh k v acc :
  existsb (String.eqb k) (Dict.keys acc) = false -> Dict.set k v acc = acc ++ [(k, v)].
Proof.
  induction acc as [|[k0 v0] acc IH]; simpl; [reflexivity|].
  intros H. apply orb_false_iff in H as [E H]. rewrite E. now rewrite IH.
Qed.

Lemma skip_ws_head c r : is_ws c = false -> skip_ws (String c r) = String c r.
Proof. intros H. cbn [skip_ws]. now rewrite H. Qed.

Lemma expect_same c r : expect c (String c r) = Some r.
Proof. cbn [expect]. now rewrite Ascii.eqb_refl. Qed.

Lemma expect_other c c' r : Ascii.eqb c' c = false -> expect c (String c' r) = None.
Proof. intros H. cbn [expect]. now rewrite H. Qed.

Lemma join_cons sep x y l : join sep (x :: y :: l) = x +:+ sep +:+ join sep (y :: l).
Proof. reflexivity. Qed.

Lemma parse_elems_dumps items :
  Forall reads_back items ->
  forallb py_valid items = true ->
  items <> [] ->
  forall f acc rest,
    delimited rest = true ->
    (2 * String.length (join ", " (map dumps items) +:+ String "]" rest) + 1 <= f)%nat ->
    parse_elems f acc (join ", " (map dumps items) +:+ String "]" rest)
    = Some (JArr (acc ++ items), rest).
Proof.
  induction 1 as [|v tl Hv Htl IH]; [congruence|].
  intros Hvalid _ f acc rest Hrest Hf. simpl in Hvalid.
  apply andb_true_iff in Hvalid as [Hvv Hvt].
  destruct f as [|f]; [lia|]. rewrite parse_elems_step.
  destruct tl as [|v2 tl].
  - cbn [map join] in *.
    rewrite (Hv Hvv f (String "]" rest) eq_refl) by lia.
    rewrite skip_ws_head by reflexivity.
    rewrite expect_other by reflexivity. now rewrite expect_same.
  - change (map dumps (v :: v2 :: tl)) with (dumps v :: dumps v2 :: map dumps tl) in *.
    change (map dumps (v2 :: tl)) with (dumps v2 :: map dumps tl) in IH.
    rewrite join_cons in *.
    set (X := join ", " (dumps v2 :: map dumps tl) +:+ String "]" rest) in *.
    replace ((dumps v +:+ ", " +:+ join ", " (dumps v2 :: map dumps tl)) +:+ String "]" rest)
      with (dumps v +:+ String "," (String " " X)) in *
      by (unfold X; now norm_app).
    rewrite length_append in Hf. cbn [String.length] in Hf.
    rewrite (Hv Hvv f (String "," (String " " X)) eq_refl)
      by (rewrite length_append; cbn [String.length]; lia).
    rewrite skip_ws_head by reflexivity. rewrite expect_same.
    rewrite parse_elems_space. unfold X in *.
    rewrite (IH Hvt ltac:(discriminate) f (acc ++ [v]) rest Hrest) by lia.
    now rewrite <- app_assoc.
Qed.

Lemma parse_members_dumps entries :
  Forall (fun e => reads_back (snd e)) entries ->
  forallb (fun e => py_valid (snd e)) entries = true ->
  entries <> [] ->
  forall f acc rest,
    distinct (map fst (acc ++ entries)) = true ->
    delimited rest = true ->
    (2 * String.length (join ", " (map member entries) +:+ String "}" rest) + 1 <= f)%nat ->
    parse_members f acc (join ", " (map member entries) +:+ String "}" rest)
    = Some (JObj (acc ++ entries), rest).
Proof.
  induction 1 as [|[k v] tl Hv Htl IH]; [congruence|].
  intros Hvalid _ f acc rest Hd Hrest Hf. simpl in Hvalid, Hv.
  apply andb_true_iff in Hvalid as [Hvv Hvt].
  assert (Hfresh : existsb (String.eqb k) (Dict.keys acc) = false).
  { rewrite map_app in Hd. simpl in Hd. now destruct (distinct_app_cons _ _ _ Hd). }
  destruct f as [|f]; [lia|].
  destruct tl as [|e2 tl].
  - cbn [map join] in *. unfold member in *. cbn [fst snd] in *.
    replace ((quote k +:+ ": " +:+ dumps v) +:+ String "}" rest)
      with (String dquote (escape k +:+ String dquote
              (String ":" (String " " (dumps v +:+ String "}" rest))))) in *
      by (unfold quote; now norm_app).
    rewrite parse_members_quote, parse_escape.
    rewrite skip_ws_head by reflexivity. rewrite expect_same, parse_value_space.
    cbn [String.length] in Hf. rewrite length_append in Hf. cbn [String.length] in Hf.
    rewrite (Hv Hvv f (String "}" rest) eq_refl) by lia.
    rewrite skip_ws_head by reflexivity.
    rewrite expect_other by reflexivity. rewrite expect_same.
    now rewrite dict_set_fresh.
  - change (map member ((k, v) :: e2 :: tl)) with (member (k, v) :: member e2 :: map member tl) in *.
    change (map member (e2 :: tl)) with (member e2 :: map member tl) in IH.
    rewrite join_cons in *.
    set (X := join ", " (member e2 :: map member tl) +:+ String "}" rest) in *.
    unfold member at 1 in Hf. unfold member at 1. cbn [fst snd] in *.
    replace (((quote k +:+ ": " +:+ dumps v) +:+ ", "
              +:+ join ", " (member e2 :: map member tl)) +:+ String "}" rest)
      with (String dquote (escape k +:+ String dquote
              (String ":" (String " " (dumps v +:+ String "," (String " " X)))))) in *
      by (unfold X, quote; now norm_app).
    rewrite parse_members_quote, parse_escape.
    rewrite skip_ws_head by reflexivity. rewrite expect_same, parse_value_space.
    cbn [String.length] in Hf. rewrite length_append in Hf. cbn [String.length] in Hf.
    rewrite length_append in Hf. cbn [String.length] in Hf.
    rewrite (Hv Hvv f (String "," (String " " X)) eq_refl)
      by (rewrite length_append; cbn [String.length]; lia).
    rewrite skip_ws_head by reflexivity. rewrite expect_same.
    rewrite parse_members_space, dict_set_fresh by exact Hfresh.
    unfold X in *.
    assert (Hd' : distinct (map fst ((acc ++ [(k, v)]) ++ e2 :: tl)) = true)
      by now rewrite <- app_assoc.
    rewrite (IH Hvt ltac:(discriminate) f (acc ++ [(k, v)]) rest Hd' Hrest) by lia.
    now rewrite <- app_assoc.
Qed.

Lemma reads_back_all v : reads_back v.
Proof.
  induction v as [| b | z | s | items IH | entries IH] using json_nested_ind;
    intros Hvalid f rest Hrest Hf.
  - destruct f; [rewrite length_append in Hf; simpl in Hf; lia | reflexivity].
  - destruct f; [destruct b; rewrite length_append in Hf; simpl in Hf; lia
                | destruct b; reflexivity].
  - destruct (parse_value_int 0 z rest) as [_ (c & s & Hs & _)].
    destruct f; [cbn [dumps] in Hf; rewrite Hs in Hf; simpl in Hf; lia|].
    cbn [dumps]. rewrite (proj1 (parse_value_int f z rest)).
    now apply parse_number_int.
  - destruct f; [cbn [dumps] in Hf; unfold quote in Hf; norm_app_in Hf; simpl in Hf; lia|].
    cbn [dumps]. unfold quote. norm_app.
    now rewrite parse_value_quote, parse_escape.
  - cbn [dumps] in *. norm_app_in Hf. norm_app.
    destruct f; [simpl in Hf; lia|].
    rewrite parse_value_bracket.
    destruct items as [|v tl].
    + reflexivity.
    + destruct (dumps_head v (join ", " (map dumps tl) +:+ String "]" rest))
        as (c & s & Hs & Hws & Hc).
      assert (Hhead : exists s', join ", " (map dumps (v :: tl)) +:+ String "]" rest
                                 = String c s').
      { destruct tl as [|v2 tl].
        - cbn [map join]. destruct (dumps_head v (String "]" rest)) as (c' & s' & Hs' & _).
          cbn [map join] in Hs. norm_app_in Hs. rewrite Hs' in Hs.
          injection Hs as -> _. eauto.
        - change (map dumps (v :: v2 :: tl)) with (dumps v :: map dumps (v2 :: tl)).
          change (map dumps (v2 :: tl)) with (dumps v2 :: map dumps tl).
          rewrite join_cons.
          destruct (dumps_head v
                      (", " +:+ join ", " (dumps v2 :: map dumps tl) +:+ String "]" rest))
            as (c' & s' & Hs' & _).
          destruct (dumps_head v EmptyString) as (c0 & s0 & Hs0 & _).
          rewrite append_nil_r in Hs0. rewrite Hs0 in Hs, Hs' |- *.
          rewrite append_cons in Hs, Hs'. injection Hs as -> _.
          norm_app. eauto. }
      destruct Hhead as [s' Hs']. rewrite Hs'.
      rewrite skip_ws_head by exact Hws. rewrite expect_other by exact Hc.
      rewrite <- Hs'.
      rewrite (parse_elems_dumps (v :: tl) IH Hvalid ltac:(discriminate) f [] rest Hrest);
        [reflexivity|].
      cbn [String.length] in Hf. lia.
  - cbn [dumps py_valid] in *.
    change (fun e : string * json => quote (fst e) +:+ ": " +:+ dumps (snd e))
      with member in *.
    apply andb_true_iff in Hvalid as [Hd Hvalid].
    norm_app_in Hf. norm_app.
    destruct f; [simpl in Hf; lia|].
    rewrite parse_value_brace.
    destruct entries as [|[k v] tl]; [reflexivity|].
    assert (Hhead : exists s', join ", " (map member ((k, v) :: tl)) +:+ String "}" rest
                               = String dquote s').
    { destruct tl as [|e2 tl].
      - cbn [map join]. unfold member, quote. norm_app. eauto.
      - change (map member ((k, v) :: e2 :: tl))
          with (member (k, v) :: member e2 :: map member tl).
        rewrite join_cons. unfold member at 1, quote. norm_app. eauto. }
    destruct Hhead as [s' Hs']. rewrite Hs'.
    rewrite skip_ws_head by reflexivity. rewrite expect_other by reflexivity.
    rewrite <- Hs'.
    rewrite (parse_members_dumps ((k, v) :: tl) IH Hvalid ltac:(discriminate)
               f [] rest Hd Hrest); [reflexivity|].
    cbn [String.length] in Hf. lia.
Qed.

(** Every value Python can hold is read back from its text. *)
Theorem loads_dumps v : py_valid v = true -> loads (dumps v) = Some v.
Proof.
  intros Hvalid. unfold loads.
  pose proof (reads_back_all v Hvalid (2 * String.length (dumps v) + 2)%nat EmptyString eq_refl)
    as H.
  rewrite append_nil_r in H. rewrite H by lia. reflexivity.
Qed.
End RefJsonFacts.

(** With the reference codec no assumption on the library is left: every
    document Python can hold comes back from the file it was saved to. *)
Lemma save_then_load_reference
  (dir_exists : string -> bool)
  (arg : option string) (w w2 : Workflow) (W : World) (d : json) :
  workflow_data w = Some d ->
  py_valid d = true ->
  workflow_name w2 = match arg with Some n => n | None => workflow_name w end ->
  can_open_w dir_exists W (workflow_path (workflow_name w2)) = true ->
  exists W1,
    save_workflow RefJson.dumps dir_exists arg w W = (Ok tt, w, W1)
    /\ load_workflow RefJson.loads w2 W1
       = (Ok d, mkWorkflow (with_json_suffix (workflow_name w2)) (workflow_data w2), W1).
Proof.
  intros Hd Hvalid Hn Ho. eexists.
  split; [apply save_workflow_run; [exact Hd | rewrite <- Hn; exact Ho]|].
  rewrite load_workflow_run. simpl. rewrite Hn.
  rewrite lookup_insert_eq, (RefJsonFacts.loads_dumps d Hvalid). reflexivity.
Qed.

(** * Further properties of the code *)

(** ** Methods that only read and print *)

Lemma world_eta W : mkWorld (files W) (stdout W) (entropy W) (sent W) = W.
Proof. now destruct W. Qed.

Lemma prints_weaken {A} (n k : nat) (m : M A) :
  (n <= k)%nat -> prints_at_most n m -> prints_at_most k m.
Proof.
  intros Hnk Hm w W. destruct (Hm w W) as (r & lines & E & L).
  exists r, lines. split; [exact E | lia].
Qed.

Lemma prints_ret {A} (a : A) : prints_at_most 0 (ret a).
Proof.
  intros w W. exists (Ok a), []. rewrite app_nil_r, world_eta. now split.
Qed.

Lemma prints_raise {A} (e : exn) : prints_at_most 0 (@raise A e).
Proof.
  intros w W. exists (Raise e), []. rewrite app_nil_r, world_eta. now split.
Qed.

Lemma prints_lift {A} (r : result A) : prints_at_most 0 (lift r).
Proof.
  intros w W. exists r, []. rewrite app_nil_r, world_eta. now split.
Qed.

Lemma prints_self_data : prints_at_most 0 self_data.
Proof.
  intros w W. unfold self_data.
  destruct (workflow_data w) as [d|]; eexists _, []; rewrite app_nil_r, world_eta;
    now split.
Qed.

Lemma prints_print line : prints_at_most 1 (print line).
Proof. intros w W. exists (Ok tt), [line]. now split. Qed.

Lemma prints_bind {A B} (n k : nat) (m : M A) (f : A -> M B) :
  prints_at_most n m ->
  (forall a, prints_at_most k (f a)) ->
  prints_at_most (n + k) (bind m f).
Proof.
  intros Hm Hf w W. unfold bind.
  destruct (Hm w W) as (r & l1 & -> & L1).
  destruct r as [a|e].
  - destruct (Hf a w (mkWorld (files W) (stdout W ++ l1) (entropy W) (sent W)))
      as (r2 & l2 & -> & L2).
    exists r2, (l1 ++ l2). cbn [files stdout entropy sent].
    rewrite <- app_assoc, length_app. split; [reflexivity | lia].
  - exists (Raise e), l1. split; [reflexivity | lia].
Qed.

Lemma get_prompt_node_id_reads tone : prints_at_most 0 (get_prompt_node_id tone).
Proof.
  unfold get_prompt_node_id.
  destruct (negb _); [apply prints_raise|].
  apply (prints_bind 0 0); [apply prints_self_data | intros d].
  apply (prints_bind 0 0); [apply prints_lift | intros nodes].
  apply (prints_bind 0 0); [apply prints_lift | intros [id|]]; apply prints_ret.
Qed.

Lemma get_node_id_reads node_type : prints_at_most 0 (get_node_id node_type).
Proof.
  unfold get_node_id.
  apply (prints_bind 0 0); [apply prints_self_data | intros d].
  apply (prints_bind 0 0); [apply prints_lift | intros nodes].
  apply (prints_bind 0 0); [apply prints_lift | intros [id|]];
    [apply prints_ret | apply prints_raise].
Qed.

Lemma load_input_reads node field : prints_at_most 0 (load_input node field).
Proof.
  unfold load_input.
  apply (prints_bind 0 0); [apply prints_self_data | intros d]. apply prints_lift.
Qed.

(** X9: the two scans, [show_prompts] and [print_model] change nothing
    but the output, on any object and any document, also when they
    raise: the scans never call [print], [show_prompts] calls it at most
    twice and [print_model] at most once. *)
Theorem readers_only_print
  (py_repr : json -> string) (key : string) :
  prints_at_most 0 (get_prompt_node_id key)
  /\ prints_at_most 0 (get_node_id key)
  /\ prints_at_most 2 (show_prompts py_repr)
  /\ prints_at_most 1 (print_model py_repr).
Proof.
  split; [apply get_prompt_node_id_reads|].
  split; [apply get_node_id_reads|].
  split.
  - unfold show_prompts.
    apply (prints_bind 0 2); [apply get_prompt_node_id_reads | intros pid].
    apply (prints_bind 0 2); [apply get_prompt_node_id_reads | intros nid].
    apply (prints_bind 1 1).
    + destruct (negb (is_none pid)); [|apply (prints_weaken 0); [lia | apply prints_ret]].
      apply (prints_bind 0 1); [apply load_input_reads | intros text]. apply prints_print.
    + intros _.
      destruct (negb (is_none nid)); [|apply (prints_weaken 0); [lia | apply prints_ret]].
      apply (prints_bind 0 1); [apply load_input_reads | intros text]. apply prints_print.
  - unfold print_model.
    apply (prints_bind 0 1); [apply get_node_id_reads | intros mid].
    destruct (negb (is_none mid)); [|apply (prints_weaken 0); [lia | apply prints_ret]].
    apply (prints_bind 0 1); [apply load_input_reads | intros text]. apply prints_print.
Qed.

(** ** What a run never does *)

Section Untouched.

Variable path : option string.

Lemma untouched_refl W : untouched path W W.
Proof. now split. Qed.

Lemma untouched_trans W1 W2 W3 :
  untouched path W1 W2 -> untouched path W2 W3 -> untouched path W1 W3.
Proof.
  intros [S1 F1] [S2 F2]. split; [congruence|].
  intros q Hq. now rewrite F2, F1.
Qed.

(** What only prints is harmless. *)
Lemma prints_untouched {A} n (m : M A) :
  prints_at_most n m -> preserves (untouched path) m.
Proof.
  intros Hm w W. destruct (Hm w W) as (r & lines & -> & _). now split.
Qed.

Lemma preserves_bind {A B} (m : M A) (f : A -> M B) :
  preserves (untouched path) m ->
  (forall a, preserves (untouched path) (f a)) ->
  preserves (untouched path) (bind m f).
Proof.
  intros Hm Hf w W. unfold bind. specialize (Hm w W).
  destruct (m w W) as [[[a|e] w1] W1]; simpl in *; [|exact Hm].
  exact (untouched_trans _ _ _ Hm (Hf a w1 W1)).
Qed.

Lemma preserves_for_each {A} (xs : list A) (body : A -> M unit) :
  (forall x, preserves (untouched path) (body x)) ->
  preserves (untouched path) (for_each xs body).
Proof.
  intros Hb. induction xs as [|x xs IH]; simpl.
  - intros w W. apply untouched_refl.
  - apply preserves_bind; auto.
Qed.

Lemma preserves_set_data d : preserves (untouched path) (set_data d).
Proof. intros w W. apply untouched_refl. Qed.

Lemma preserves_randint a b : preserves (untouched path) (randint a b).
Proof.
  intros w W. unfold randint. destruct (b <? a); simpl; now split.
Qed.

Lemma preserves_store_input node field v :
  preserves (untouched path) (store_input node field v).
Proof.
  unfold store_input.
  apply preserves_bind; [apply (prints_untouched 0), prints_self_data | intros d].
  repeat (apply preserves_bind; [apply (prints_untouched 0), prints_lift | intros ?]).
  apply preserves_set_data.
Qed.

Lemma preserves_update_positive_prompt prompt :
  preserves (untouched path) (update_positive_prompt prompt).
Proof.
  unfold update_positive_prompt.
  apply preserves_bind; [apply (prints_untouched 0), get_prompt_node_id_reads | intros id].
  destruct (negb (is_none id)); [apply preserves_store_input|].
  apply (prints_untouched 1), prints_print.
Qed.

Lemma preserves_update_negative_prompt prompt :
  preserves (untouched path) (update_negative_prompt prompt).
Proof.
  unfold update_negative_prompt.
  apply preserves_bind; [apply (prints_untouched 0), get_prompt_node_id_reads | intros id].
  destruct (negb (is_none id)); [apply preserves_store_input|].
  apply (prints_untouched 1), prints_print.
Qed.

Lemma preserves_update_steps steps : preserves (untouched path) (update_steps steps).
Proof.
  unfold update_steps.
  apply preserves_bind; [apply (prints_untouched 0), prints_self_data | intros d].
  apply preserves_bind; [apply (prints_untouched 0), prints_lift | intros nodes].
  apply preserves_for_each. intros node.
  apply preserves_bind; [apply (prints_untouched 0), prints_self_data | intros d'].
  apply preserves_bind; [apply (prints_untouched 0), prints_lift | intros inputs].
  apply preserves_bind; [apply (prints_untouched 0), prints_lift | intros [|]].
  - apply preserves_store_input.
  - apply (prints_untouched 0), prints_ret.
Qed.

Lemma preserves_update_seed seed : preserves (untouched path) (update_seed seed).
Proof.
  unfold update_seed.
  apply preserves_bind; [apply (prints_untouched 0), prints_self_data | intros d].
  apply preserves_bind; [apply (prints_untouched 0), prints_lift | intros nodes].
  apply preserves_for_each. intros node.
  apply preserves_bind; [apply (prints_untouched 0), prints_self_data | intros d'].
  apply preserves_bind; [apply (prints_untouched 0), prints_lift | intros inputs].
  apply preserves_bind; [apply (prints_untouched 0), prints_lift | intros [|]].
  - assert (Hdraw : preserves (untouched path)
                      (r <- randint 0 1000000 ;; store_input node "seed" (JInt r))).
    { apply preserves_bind; [apply preserves_randint | intros r].
      apply preserves_store_input. }
    destruct seed as [| |z| | |]; try apply preserves_store_input.
    destruct z as [|p|[p|p|]]; try apply preserves_store_input. exact Hdraw.
  - apply (prints_untouched 0), prints_ret.
Qed.

Lemma preserves_queue_prompt json_dumps server_adress :
  preserves (untouched path) (queue_prompt json_dumps server_adress).
Proof.
  unfold queue_prompt.
  apply preserves_bind; [apply (prints_untouched 0), prints_self_data | intros d].
  apply (prints_untouched 0), prints_ret.
Qed.

Lemma preserves_when_str o k :
  (forall s, preserves (untouched path) (k s)) ->
  preserves (untouched path) (when_str o k).
Proof.
  intros Hk. unfold when_str. destruct o as [s|]; [destruct (String.eqb s _)|]; auto;
    apply (prints_untouched 0), prints_ret.
Qed.

Lemma preserves_when_int o k :
  (forall z, preserves (untouched path) (k z)) ->
  preserves (untouched path) (when_int o k).
Proof.
  intros Hk. unfold when_int. destruct o as [z|]; [destruct (z =? 0)|]; auto;
    apply (prints_untouched 0), prints_ret.
Qed.

End Untouched.

Lemma preserves_save_workflow json_dumps dir_exists n :
  preserves (untouched (Some (workflow_path n)))
            (save_workflow json_dumps dir_exists (Some n)).
Proof.
  intros w W. unfold save_workflow, bind, ret, open_w, json_dump, self_data. simpl.
  fold (workflow_path n).
  destruct (can_open_w dir_exists W (workflow_path n)); [|apply untouched_refl].
  destruct (workflow_data w); simpl; (split; [reflexivity|]);
    intros q Hq; cbn [files snd]; repeat rewrite lookup_insert_ne by congruence;
    reflexivity.
Qed.

(** X15: a run of [main] sends no request and changes no file other than
    the one [--save] names, whatever the arguments, the files, the
    document loaded and the outcome (also when it stops on an error). *)
Theorem main_touches_only_the_saved_file
  (json_dumps : json -> string) (json_loads : string -> option json)
  (validate_prompt : json -> bool) (dir_exists : string -> bool)
  (args : Args) (W : World) :
  untouched (option_map workflow_path (arg_save args)) W
            (snd (main json_dumps json_loads validate_prompt dir_exists args W)).
Proof.
  unfold main. rewrite init_run.
  set (path := option_map workflow_path (arg_save args)).
  destruct (files W !! workflow_path (arg_workflow args)) as [text|];
    [|apply untouched_refl].
  destruct (json_loads text) as [d|]; [|apply untouched_refl].
  destruct (validate_prompt d); [|apply untouched_refl].
  match goal with
  | |- untouched _ _ (snd (let (p, W'') := ?run ?w W in _)) =>
      assert (H : preserves (untouched path) run); [|specialize (H w W);
        destruct (run w W) as [[r w'] W']; exact H]
  end.
  apply preserves_bind; [|intros _].
  { apply preserves_when_str. intros p. apply preserves_update_positive_prompt. }
  apply preserves_bind; [|intros _].
  { apply preserves_when_str. intros p. apply preserves_update_negative_prompt. }
  apply preserves_bind; [|intros _].
  { apply preserves_when_int. intros z. apply preserves_update_steps. }
  apply preserves_bind; [|intros _].
  { apply preserves_when_int. intros z. apply preserves_update_seed. }
  apply preserves_bind; [|intros _].
  { unfold path. destruct (arg_save args) as [n|]; simpl.
    - unfold when_str. destruct (String.eqb n _).
      + apply (prints_untouched _ 0), prints_ret.
      + apply preserves_save_workflow.
    - apply (prints_untouched _ 0), prints_ret. }
  apply preserves_queue_prompt.
Qed.

(** ** A given seed, and repeated updates *)

Lemma dict_set_set k v v' l : Dict.set k v' (Dict.set k v l) = Dict.set k v' l.
Proof.
  induction l as [|[k0 v0] l IH]; simpl.
  - now rewrite String.eqb_refl.
  - destruct (String.eqb k k0) eqn:E; simpl; rewrite E; [reflexivity | now rewrite IH].
Qed.

Lemma holds_with_input field v node :
  holds field node = true -> holds field (with_input field v node) = true.
Proof.
  unfold holds, node_input. destruct (node_inputs node) as [inputs|] eqn:E; [|discriminate].
  intros _. rewrite (with_input_inputs _ _ _ _ E). now rewrite dict_get_set_eq.
Qed.

Lemma with_input_twice field v v' node :
  with_input field v' (with_input field v node) = with_input field v' node.
Proof.
  destruct node as [| | | |?|fields]; try reflexivity. simpl.
  destruct (Dict.get "inputs" fields) as [[| | | |?|inputs]|] eqn:E;
    simpl; rewrite ?E; try reflexivity.
  rewrite dict_get_set_eq. now rewrite !dict_set_set.
Qed.

Lemma map_nodes_field field v entries W :
  map_nodes (field_node field v) entries W
  = (map (fun e => (fst e, fst (field_node field v (snd e) W))) entries, W).
Proof.
  induction entries as [|[k node] entries IH]; [reflexivity|].
  cbn [map_nodes]. unfold field_node at 1. rewrite IH. reflexivity.
Qed.

Lemma map_nodes_field_twice field v v' entries W :
  fst (map_nodes (field_node field v') (fst (map_nodes (field_node field v) entries W)) W)
  = fst (map_nodes (field_node field v') entries W).
Proof.
  rewrite !map_nodes_field. cbn [fst]. rewrite map_map.
  apply map_ext. intros [k node]. cbn [fst snd]. f_equal. unfold field_node. cbn [fst].
  destruct (holds field node) eqn:H.
  - now rewrite holds_with_input, with_input_twice.
  - now rewrite H.
Qed.

Lemma map_nodes_field_document field v entries W :
  is_workflow_document (JObj entries) = true ->
  is_workflow_document (JObj (fst (map_nodes (field_node field v) entries W))) = true.
Proof.
  rewrite map_nodes_field. cbn [fst is_workflow_document]. intros H.
  apply andb_true_iff in H as [Hd Hok]. apply andb_true_iff. split.
  - unfold Dict.keys in *. rewrite map_map. cbn [fst]. exact Hd.
  - clear Hd. induction entries as [|[k node] entries IH]; [reflexivity|].
    cbn [forallb map fst snd] in *. apply andb_true_iff in Hok as [Hn Hok].
    rewrite (IH Hok), andb_true_r. unfold field_node. cbn [fst].
    destruct (holds field node); [now apply with_input_ok | exact Hn].
Qed.

(** What a pass that sets [field] where it exists does to a document. *)
Lemma field_update_frame field v entries W id :
  is_workflow_document (JObj entries) = true ->
  let d := JObj entries in
  let d' := JObj (fst (map_nodes (field_node field v) entries W)) in
  (input_of d id field <> None -> input_of d' id field = Some v)
  /\ (input_of d id field = None -> node_of d' id = node_of d id)
  /\ (forall f, f <> field -> input_of d' id f = input_of d id f)
  /\ (forall g, g <> "inputs" -> field_of d' id g = field_of d id g).
Proof.
  intros Hwf d d'. unfold d, d', input_of, field_of, node_of.
  pose proof (map_nodes_get (field_node field v)
                (fun node node' =>
                   node' = if holds field node then with_input field v node else node)
                (fun node W => eq_refl) entries W id) as Hget.
  destruct (Dict.get id entries) as [node|] eqn:Hg.
  - destruct Hget as (node' & -> & ->).
    assert (Hok : node_ok node = true).
    { simpl in Hwf. apply andb_true_iff in Hwf as [_ Hall].
      exact (dict_get_forallb node_ok _ _ _ Hg Hall). }
    destruct (holds field node) eqn:Hh.
    + repeat split.
      * intros _. now apply with_input_same.
      * intros Hnone. apply holds_false in Hnone. congruence.
      * intros f Hf. apply with_input_other. congruence.
      * intros g Hgne. now apply with_input_field.
    + repeat split; auto.
      intros Hsome. apply holds_false in Hh. contradiction.
  - rewrite Hget. repeat split; auto. congruence.
Qed.

Lemma update_seed_literal_body z name k node entries W :
  z <> -1 ->
  Dict.get k entries = Some node ->
  node_ok node = true ->
  (d <- self_data ;;
   inputs <- lift (inputs_at d (JStr k)) ;;
   found <- lift (py_contains "seed" inputs) ;;
   if found then
     match JInt z with
     | JInt (-1) =>
         r <- randint 0 1000000 ;;
         store_input (JStr k) "seed" (JInt r)
     | _ => store_input (JStr k) "seed" (JInt z)
     end
   else ret tt)
    (mkWorkflow name (Some (JObj entries))) W
  = (Ok tt,
     mkWorkflow name
       (Some (JObj (Dict.set k (fst (field_node "seed" (JInt z) node W)) entries))),
     snd (field_node "seed" (JInt z) node W)).
Proof.
  intros Hz Hg Hn. destruct (node_ok_inv _ Hn) as (fields & inputs & Hnode & Hin).
  assert (Hni : node_inputs node = Some inputs) by (subst; simpl; now rewrite Hin).
  unfold field_node. rewrite (holds_mem _ _ _ Hni). cbn [fst snd].
  unfold bind at 1, self_data at 1. cbn [workflow_data].
  unfold bind at 1, lift at 1, inputs_at. cbn [py_getitem rbind]. rewrite Hg.
  subst node. cbn [py_getitem rbind]. rewrite Hin.
  unfold bind at 1, lift at 1. cbn [py_contains].
  destruct (Dict.mem "seed" inputs).
  - destruct z as [|p|[p|p|]]; try congruence; now apply store_input_run.
  - unfold ret. now rewrite (dict_set_same _ _ _ Hg).
Qed.

Lemma update_seed_literal_run z (w : Workflow) (W : World) (entries : Dict.t) :
  z <> -1 ->
  workflow_data w = Some (JObj entries) ->
  is_workflow_document (JObj entries) = true ->
  update_seed (JInt z) w W
  = (Ok tt,
     mkWorkflow (workflow_name w)
                (Some (JObj (fst (map_nodes (field_node "seed" (JInt z)) entries W)))),
     W).
Proof.
  intros Hz Hd Hwf. destruct w as [name od]. simpl in Hd. subst od.
  unfold update_seed. unfold bind at 1, self_data at 1. cbn [workflow_data].
  unfold bind at 1, lift at 1. cbn [py_iter workflow_name].
  rewrite (for_each_nodes _ (field_node "seed" (JInt z)) name
             (fun k node entries W => update_seed_literal_body z name k node entries W Hz)
             entries W Hwf).
  now rewrite map_nodes_world.
Qed.

(** X1: with a seed other than -1, [update_seed] draws no random number
    and changes nothing but the document: on a workflow document it
    returns normally, keeps the node ids, sets 'seed' to the given value
    in every node that had one, leaves every node without one as it was,
    and leaves all other inputs and fields unchanged. *)
Theorem update_seed_given_sets_seed_only (z : Z) (w : Workflow) (W : World) (d : json) :
  z <> -1 ->
  workflow_data w = Some d ->
  is_workflow_document d = true ->
  exists d',
    update_seed (JInt z) w W = (Ok tt, mkWorkflow (workflow_name w) (Some d'), W)
    /\ node_ids d' = node_ids d
    /\ forall id,
         (input_of d id "seed" <> None -> input_of d' id "seed" = Some (JInt z))
         /\ (input_of d id "seed" = None -> node_of d' id = node_of d id)
         /\ (forall field, field <> "seed" ->
                           input_of d' id field = input_of d id field)
         /\ (forall field, field <> "inputs" ->
                           field_of d' id field = field_of d id field).
Proof.
  intros Hz Hd Hwf. destruct d as [| | | |?|entries]; try discriminate.
  exists (JObj (fst (map_nodes (field_node "seed" (JInt z)) entries W))).
  split; [now apply update_seed_literal_run|].
  split; [apply map_nodes_keys|].
  intros id. now apply field_update_frame.
Qed.

(** X3: of two calls of [update_steps] in a row the last one wins: on a
    workflow document, updating to [n] and then to [m] gives the very
    object and world that updating to [m] alone gives; so the update is
    idempotent. *)
Theorem update_steps_last_wins (n m : Z) (w : Workflow) (W : World) (d : json) :
  workflow_data w = Some d ->
  is_workflow_document d = true ->
  (update_steps (JInt n) ;; update_steps (JInt m)) w W = update_steps (JInt m) w W.
Proof.
  intros Hd Hwf. destruct d as [| | | |?|entries]; try discriminate.
  unfold bind. rewrite (update_steps_run (JInt n) w W entries Hd Hwf).
  rewrite (update_steps_run (JInt m) w W entries Hd Hwf).
  change (steps_node (JInt m)) with (field_node "steps" (JInt m)).
  change (steps_node (JInt n)) with (field_node "steps" (JInt n)).
  set (entries1 := fst (map_nodes (field_node "steps" (JInt n)) entries W)).
  rewrite (update_steps_run (JInt m)
             (mkWorkflow (workflow_name w) (Some (JObj entries1))) W entries1 eq_refl
             (map_nodes_field_document "steps" (JInt n) entries W Hwf)).
  cbn [workflow_name].
  change (steps_node (JInt m)) with (field_node "steps" (JInt m)).
  unfold entries1. now rewrite map_nodes_field_twice.
Qed.

(** ** Random seeds, node by node *)

Lemma drawn_seed_world entries W :
  files (snd (map_nodes drawn_seed_node entries W)) = files W
  /\ stdout (snd (map_nodes drawn_seed_node entries W)) = stdout W
  /\ sent (snd (map_nodes drawn_seed_node entries W)) = sent W
  /\ forall j, entropy (snd (map_nodes drawn_seed_node entries W)) j
               = entropy W (seeds_in entries + j)%nat.
Proof.
  revert W. induction entries as [|[k node] entries IH]; intros W; [now repeat split|].
  cbn [map_nodes]. unfold seeds_in. cbn [List.filter snd].
  destruct (drawn_seed_node node W) as [node' W1] eqn:E.
  unfold drawn_seed_node in E. specialize (IH W1).
  destruct (map_nodes drawn_seed_node entries W1) as [rest' W2].
  cbn [snd] in *. destruct IH as (Hf & Ho & Hs & He).
  destruct (holds "seed" node); injection E as <- <-; cbn [files stdout sent entropy] in *;
    repeat split; auto.
  all: intros j; rewrite He; unfold seeds_in; cbn [length]; f_equal; lia.
Qed.

Lemma drawn_seed_at before id node after W :
  existsb (String.eqb id) (Dict.keys before) = false ->
  holds "seed" node = true ->
  Dict.get id (fst (map_nodes drawn_seed_node (before ++ (id, node) :: after) W))
  = Some (with_input "seed" (JInt (entropy W (seeds_in before) mod 1000001)) node).
Proof.
  intros Hfresh Hh. revert W Hfresh.
  induction before as [|[k0 n0] before IH]; intros W Hfresh.
  - cbn [app map_nodes]. unfold drawn_seed_node at 1. rewrite Hh.
    destruct (map_nodes drawn_seed_node after _) as [rest' W2].
    cbn [fst Dict.get]. now rewrite String.eqb_refl.
  - simpl in Hfresh. apply orb_false_iff in Hfresh as [Hne Hfresh].
    cbn [app map_nodes]. unfold drawn_seed_node at 1, seeds_in. cbn [List.filter snd].
    destruct (holds "seed" n0).
    + specialize (IH (mkWorld (files W) (stdout W) (fun i => entropy W (S i)) (sent W))
                     Hfresh).
      destruct (map_nodes drawn_seed_node (before ++ (id, node) :: after) _)
        as [rest' W2].
      cbn [fst Dict.get length] in *. rewrite Hne. exact IH.
    + specialize (IH W Hfresh).
      destruct (map_nodes drawn_seed_node (before ++ (id, node) :: after) W)
        as [rest' W2].
      cbn [fst Dict.get] in *. rewrite Hne. exact IH.
Qed.

(** X2: [update_seed (-1)] draws one number for each node that has a
    seed, in the order of the mapping: the node with [k] seeded nodes
    before it gets the [k]-th number drawn, reduced modulo 1,000,001, and
    after the call the random source has moved on by the number of seeded
    nodes.  Nodes without a seed are as they were, and so are all other
    inputs, the files, the output and the requests. *)
Theorem update_seed_random_draws_in_order (w : Workflow) (W : World) (entries : Dict.t) :
  workflow_data w = Some (JObj entries) ->
  is_workflow_document (JObj entries) = true ->
  exists d' W',
    update_seed (JInt (-1)) w W = (Ok tt, mkWorkflow (workflow_name w) (Some d'), W')
    /\ (forall before id node after,
          entries = before ++ (id, node) :: after ->
          holds "seed" node = true ->
          input_of d' id "seed"
          = Some (JInt (entropy W (seeds_in before) mod 1000001)))
    /\ (forall id, input_of (JObj entries) id "seed" = None ->
                   node_of d' id = node_of (JObj entries) id)
    /\ (forall id field, field <> "seed" ->
                         input_of d' id field = input_of (JObj entries) id field)
    /\ (forall j, entropy W' j = entropy W (seeds_in entries + j)%nat)
    /\ files W' = files W /\ stdout W' = stdout W /\ sent W' = sent W.
Proof.
  intros Hd Hwf.
  exists (JObj (fst (map_nodes drawn_seed_node entries W))),
         (snd (map_nodes drawn_seed_node entries W)).
  split; [now apply update_seed_random_run|].
  pose proof (drawn_seed_world entries W) as (Hf & Ho & Hs & He).
  assert (Hall : forallb (fun e => node_ok (snd e)) entries = true).
  { simpl in Hwf. now apply andb_true_iff in Hwf as [_ Hall]. }
  pose proof (map_nodes_get drawn_seed_node
                (fun node node' =>
                   exists v, node' = if holds "seed" node
                                     then with_input "seed" v node else node)) as Hget.
  specialize (Hget ltac:(intros node W0; unfold drawn_seed_node;
                         destruct (holds "seed" node); cbn [fst]; eauto using JNull)
                   entries W).
  repeat split; auto.
  - intros before id node after -> Hh.
    assert (Hfresh : existsb (String.eqb id) (Dict.keys before) = false).
    { simpl in Hwf. apply andb_true_iff in Hwf as [Hdist _].
      unfold Dict.keys in Hdist. rewrite map_app in Hdist. simpl in Hdist.
      now destruct (distinct_app_cons _ _ _ Hdist). }
    unfold input_of, node_of. rewrite (drawn_seed_at _ _ _ _ _ Hfresh Hh).
    apply with_input_same.
    rewrite forallb_app in Hall. apply andb_true_iff in Hall as [_ Hall].
    simpl in Hall. now apply andb_true_iff in Hall as [Hn _].
  - intros id Hnone. unfold input_of, node_of in *. specialize (Hget id).
    destruct (Dict.get id entries) as [node|]; [|exact Hget].
    destruct Hget as (node' & -> & v & ->).
    apply holds_false in Hnone. now rewrite Hnone.
  - intros id field Hne. unfold input_of, node_of in *. specialize (Hget id).
    destruct (Dict.get id entries) as [node|]; [|now rewrite Hget].
    destruct Hget as (node' & -> & v & ->).
    destruct (holds "seed" node); [|reflexivity].
    apply with_input_other. congruence.
Qed.

(** ** Prompt updates and what is shown after them *)

Lemma found_link_holder key d id node target rest :
  first_holder key d = Some (id, node) ->
  node_input key node = Some (JArr (target :: rest)) ->
  found_link key d = Ok (Some target).
Proof.
  intros Hf Hin. unfold found_link, link_target. now rewrite Hf, Hin.
Qed.

Lemma found_link_none key d :
  first_holder key d = None -> found_link key d = Ok None.
Proof. intros Hf. unfold found_link. now rewrite Hf. Qed.

Lemma document_node_ok entries id node :
  is_workflow_document (JObj entries) = true ->
  Dict.get id entries = Some node ->
  node_ok node = true.
Proof.
  simpl. intros Hwf Hg. apply andb_true_iff in Hwf as [_ Hall].
  exact (dict_get_forallb node_ok _ _ _ Hg Hall).
Qed.

(** The body both prompt updates share, when the scan finds a node of
    the document. *)
Lemma tone_update_run (tone msg : string) prompt w W entries target tnode :
  tone = "positive" \/ tone = "negative" ->
  workflow_data w = Some (JObj entries) ->
  is_workflow_document (JObj entries) = true ->
  found_link tone (JObj entries) = Ok (Some (JStr target)) ->
  Dict.get target entries = Some tnode ->
  (pid <- get_prompt_node_id tone ;;
   if negb (is_none pid) then store_input pid "text" prompt else print msg) w W
  = (Ok tt,
     mkWorkflow (workflow_name w)
       (Some (JObj (Dict.set target (with_input "text" prompt tnode) entries))),
     W).
Proof.
  intros Ht Hd Hwf Hl Hg. unfold bind.
  rewrite (get_prompt_node_id_document tone w W _ Hd Hwf Ht), Hl. cbn [is_none negb].
  apply store_input_run; [exact Hd | exact Hg | exact (document_node_ok _ _ _ Hwf Hg)].
Qed.

Lemma store_sets_input_only entries target field v tnode :
  Dict.get target entries = Some tnode ->
  node_ok tnode = true ->
  sets_input_only (JObj entries)
    (JObj (Dict.set target (with_input field v tnode) entries)) target field v.
Proof.
  intros Hg Hok. unfold sets_input_only, input_of, field_of, node_of, node_ids.
  rewrite dict_get_set_eq, Hg. repeat split.
  - apply dict_keys_set. unfold Dict.mem. now rewrite Hg.
  - now apply with_input_same.
  - intros id Hne. apply dict_get_set_ne. congruence.
  - intros f Hf. apply with_input_other. congruence.
  - intros g Hgne. now apply with_input_field.
Qed.

(** X4: a prompt update that finds its node changes that node's 'text'
    input and nothing else: on a workflow document whose first holder of
    the tone links to a node of the document, the update returns
    normally, prints nothing, leaves the world as it was, keeps the node
    ids, leaves every other node, every other input of the target and
    its other fields unchanged, and the target's 'text' is the prompt. *)
Theorem update_prompt_changes_text_only
  (prompt : json) (w : Workflow) (W : World) (d : json)
  (id : string) (node : json) (target : string) (rest : list json) :
  workflow_data w = Some d ->
  is_workflow_document d = true ->
  node_of d target <> None ->
  (first_holder "positive" d = Some (id, node) ->
   node_input "positive" node = Some (JArr (JStr target :: rest)) ->
   exists d',
     update_positive_prompt prompt w W
     = (Ok tt, mkWorkflow (workflow_name w) (Some d'), W)
     /\ sets_input_only d d' target "text" prompt)
  /\ (first_holder "negative" d = Some (id, node) ->
      node_input "negative" node = Some (JArr (JStr target :: rest)) ->
      exists d',
        update_negative_prompt prompt w W
        = (Ok tt, mkWorkflow (workflow_name w) (Some d'), W)
        /\ sets_input_only d d' target "text" prompt).
Proof.
  intros Hd Hwf Hpresent. destruct d as [| | | |?|entries]; try discriminate.
  simpl in Hpresent.
  destruct (Dict.get target entries) as [tnode|] eqn:Hg; [clear Hpresent|congruence].
  pose proof (document_node_ok _ _ _ Hwf Hg) as Hok.
  split; intros Hf Hin;
    exists (JObj (Dict.set target (with_input "text" prompt tnode) entries));
    (split; [|now apply store_sets_input_only]).
  - apply (tone_update_run "positive" "No positive node found"); auto.
    exact (found_link_holder _ _ _ _ _ _ Hf Hin).
  - apply (tone_update_run "negative" "No negative node found"); auto.
    exact (found_link_holder _ _ _ _ _ _ Hf Hin).
Qed.

Lemma read_input_of entries id field v :
  input_of (JObj entries) id field = Some v ->
  (let? inputs := inputs_at (JObj entries) (JStr id) in py_getitem inputs (JStr field))
  = Ok v.
Proof.
  unfold input_of, node_of, node_input, inputs_at. cbn [py_getitem rbind].
  destruct (Dict.get id entries) as [node|]; [|discriminate].
  destruct node as [| | | |?|fields]; try discriminate. cbn [node_inputs py_getitem rbind].
  destruct (Dict.get "inputs" fields) as [[| | | |?|inputs]|]; try discriminate.
  intros H. cbn [py_getitem rbind]. now rewrite H.
Qed.

Lemma read_input_missing entries id field node :
  Dict.get id entries = Some node ->
  node_ok node = true ->
  node_input field node = None ->
  (let? inputs := inputs_at (JObj entries) (JStr id) in py_getitem inputs (JStr field))
  = Raise KeyError.
Proof.
  intros Hg Hok Hnone. destruct (node_ok_inv _ Hok) as (fields & inputs & -> & Hin).
  unfold inputs_at, node_input in *. cbn [py_getitem rbind node_inputs] in *.
  rewrite Hg. cbn [py_getitem rbind]. rewrite Hin in *. cbn [py_getitem rbind].
  now rewrite Hnone.
Qed.

Lemma show_prompts_run py_repr w W entries tp tn vp vn :
  workflow_data w = Some (JObj entries) ->
  is_workflow_document (JObj entries) = true ->
  found_link "positive" (JObj entries) = Ok (Some (JStr tp)) ->
  found_link "negative" (JObj entries) = Ok (Some (JStr tn)) ->
  input_of (JObj entries) tp "text" = Some vp ->
  input_of (JObj entries) tn "text" = Some vn ->
  show_prompts py_repr w W
  = (Ok tt, w,
     mkWorld (files W)
       (stdout W ++ ["Positive prompt: " +:+ py_str py_repr vp;
                     "Negative prompt: " +:+ py_str py_repr vn])
       (entropy W) (sent W)).
Proof.
  intros Hd Hwf Hp Hn Hvp Hvn. unfold show_prompts, bind.
  rewrite (get_prompt_node_id_document "positive" w W _ Hd Hwf) by auto. rewrite Hp.
  rewrite (get_prompt_node_id_document "negative" w W _ Hd Hwf) by auto. rewrite Hn.
  cbn [is_none negb].
  rewrite (load_input_run (JStr tp) "text" w W _ Hd), (read_input_of _ _ _ _ Hvp).
  unfold print at 1.
  rewrite (load_input_run (JStr tn) "text" w _ _ Hd), (read_input_of _ _ _ _ Hvn).
  unfold print. cbn [files stdout entropy sent]. now rewrite <- app_assoc.
Qed.


(** X7: when the node the positive tone links to has no 'text' input,
    [show_prompts] raises [KeyError] and prints nothing at all: the
    negative prompt is not shown either, though it could be. *)
Theorem show_prompts_without_text
  (py_repr : json -> string) (w : Workflow) (W : World) (d : json)
  (id : string) (node : json) (target : string) (rest : list json) :
  workflow_data w = Some d ->
  is_workflow_document d = true ->
  first_holder "positive" d = Some (id, node) ->
  node_input "positive" node = Some (JArr (JStr target :: rest)) ->
  node_of d target <> None ->
  input_of d target "text" = None ->
  linked "negative" d = true ->
  show_prompts py_repr w W = (Raise KeyError, w, W).
Proof.
  intros Hd Hwf Hf Hin Hpresent Hnone Hneg.
  destruct d as [| | | |?|entries]; try discriminate.
  unfold input_of, node_of in *.
  destruct (Dict.get target entries) as [tnode|] eqn:Hg; [clear Hpresent|congruence].
  assert (Hnl : exists o, found_link "negative" (JObj entries) = Ok o).
  { unfold found_link, linked in *.
    destruct (first_holder "negative" (JObj entries)) as [[id2 node2]|]; [|eauto].
    unfold link_target.
    destruct (node_input "negative" node2) as [[| | | |[|t2 rest2]|?]|];
      try discriminate.
    simpl. eauto. }
  destruct Hnl as [o Hnl]. unfold show_prompts, bind.
  rewrite (get_prompt_node_id_document "positive" w W _ Hd Hwf) by auto.
  rewrite (found_link_holder _ _ _ _ _ _ Hf Hin).
  rewrite (get_prompt_node_id_document "negative" w W _ Hd Hwf) by auto.
  rewrite Hnl. cbn [is_none negb].
  rewrite (load_input_run (JStr target) "text" w W _ Hd).
  rewrite (read_input_missing _ _ _ _ Hg (document_node_ok _ _ _ Hwf Hg) Hnone).
  now destruct o.
Qed.

(** X5: when both tones link to the same node, the second update undoes
    the first: after [update_positive_prompt p] and then
    [update_negative_prompt q] that node's 'text' is [q], and
    [show_prompts] prints [q] as the positive and as the negative
    prompt. *)
Theorem shared_text_node_last_update_wins
  (py_repr : json -> string) (p q : string) (w : Workflow) (W : World) (d : json)
  (idp idn : string) (nodep noden : json) (target : string)
  (restp restn : list json) :
  workflow_data w = Some d ->
  is_workflow_document d = true ->
  first_holder "positive" d = Some (idp, nodep) ->
  node_input "positive" nodep = Some (JArr (JStr target :: restp)) ->
  first_holder "negative" d = Some (idn, noden) ->
  node_input "negative" noden = Some (JArr (JStr target :: restn)) ->
  node_of d target <> None ->
  exists d',
    let w' := mkWorkflow (workflow_name w) (Some d') in
    (update_positive_prompt (JStr p) ;; update_negative_prompt (JStr q)) w W
    = (Ok tt, w', W)
    /\ input_of d' target "text" = Some (JStr q)
    /\ show_prompts py_repr w' W
       = (Ok tt, w',
          mkWorld (files W)
            (stdout W ++ ["Positive prompt: " +:+ q; "Negative prompt: " +:+ q])
            (entropy W) (sent W)).
Proof.
  intros Hd Hwf Hfp Hip Hfn Hin Hpresent.
  destruct d as [| | | |?|entries]; try discriminate.
  simpl in Hpresent.
  destruct (Dict.get target entries) as [tnode|] eqn:Hg; [clear Hpresent|congruence].
  pose proof (document_node_ok _ _ _ Hwf Hg) as Hok.
  pose proof (found_link_holder _ _ _ _ _ _ Hfp Hip) as Hp.
  pose proof (found_link_holder _ _ _ _ _ _ Hfn Hin) as Hn.
  set (tnode1 := with_input "text" (JStr p) tnode).
  set (entries1 := Dict.set target tnode1 entries).
  set (tnode2 := with_input "text" (JStr q) tnode1).
  set (entries2 := Dict.set target tnode2 entries1).
  assert (Hmem : Dict.mem target entries = true) by (unfold Dict.mem; now rewrite Hg).
  assert (Hwf1 : is_workflow_document (JObj entries1) = true)
    by (apply document_set_node; auto; now apply with_input_ok).
  assert (Hg1 : Dict.get target entries1 = Some tnode1) by apply dict_get_set_eq.
  assert (Hok1 : node_ok tnode1 = true) by now apply with_input_ok.
  assert (Hmem1 : Dict.mem target entries1 = true) by (unfold Dict.mem; now rewrite Hg1).
  assert (Hwf2 : is_workflow_document (JObj entries2) = true)
    by (apply document_set_node; auto; now apply with_input_ok).
  assert (Hkeep : forall tone, tone <> "text" ->
            found_link tone (JObj entries2) = found_link tone (JObj entries)).
  { intros tone Hne. unfold entries2.
    rewrite (found_link_set tone target tnode1) by
      (auto; apply with_input_other; congruence).
    unfold entries1. apply (found_link_set tone target tnode); auto.
    apply with_input_other. congruence. }
  assert (Hn1 : found_link "negative" (JObj entries1) = Ok (Some (JStr target))).
  { unfold entries1. rewrite (found_link_set "negative" target tnode); auto.
    apply with_input_other. discriminate. }
  exists (JObj entries2). cbv zeta.
  assert (Htext : input_of (JObj entries2) target "text" = Some (JStr q)).
  { unfold input_of, node_of, entries2. rewrite dict_get_set_eq.
    now apply with_input_same. }
  split; [|split; [exact Htext|]].
  - unfold bind at 1.
    change (update_positive_prompt (JStr p) w W)
      with ((pid <- get_prompt_node_id "positive" ;;
             if negb (is_none pid) then store_input pid "text" (JStr p)
             else print "No positive node found") w W).
    rewrite (tone_update_run "positive" _ (JStr p) w W entries target tnode); auto.
    change (update_negative_prompt (JStr q))
      with (pid <- get_prompt_node_id "negative" ;;
            if negb (is_none pid) then store_input pid "text" (JStr q)
            else print "No negative node found").
    apply (tone_update_run "negative" _ (JStr q)
             (mkWorkflow (workflow_name w) (Some (JObj entries1))) W
             entries1 target tnode1); auto.
  - apply (show_prompts_run py_repr _ W entries2 target target (JStr q) (JStr q)); auto.
    + rewrite Hkeep by discriminate. exact Hp.
    + rewrite Hkeep by discriminate. exact Hn.
Qed.

(** ** The model line *)

(** X8: on a workflow document [print_model] prints 'Model: ' and the
    'ckpt_name' input of the node the first 'model' link names; when no
    node has a 'model' input it raises [ValueError] 'No node found' and
    prints nothing (its test for [None] does not cover that case). *)
Theorem print_model_line_or_error
  (py_repr : json -> string) (w : Workflow) (W : World) (d : json) :
  workflow_data w = Some d ->
  is_workflow_document d = true ->
  (forall id node target rest v,
     first_holder "model" d = Some (id, node) ->
     node_input "model" node = Some (JArr (JStr target :: rest)) ->
     input_of d target "ckpt_name" = Some v ->
     print_model py_repr w W
     = (Ok tt, w,
        mkWorld (files W) (stdout W ++ ["Model: " +:+ py_str py_repr v])
                (entropy W) (sent W)))
  /\ (first_holder "model" d = None ->
      print_model py_repr w W = (Raise (ValueError "No node found"), w, W)).
Proof.
  intros Hd Hwf. destruct d as [| | | |?|entries]; try discriminate.
  split.
  - intros id node target rest v Hf Hin Hv. unfold print_model, bind.
    rewrite (get_node_id_document "model" w W _ Hd Hwf).
    rewrite (found_link_holder _ _ _ _ _ _ Hf Hin). cbn [is_none negb].
    rewrite (load_input_run (JStr target) "ckpt_name" w W _ Hd).
    now rewrite (read_input_of _ _ _ _ Hv).
  - intros Hf. unfold print_model, bind.
    rewrite (get_node_id_document "model" w W _ Hd Hwf).
    now rewrite (found_link_none _ _ Hf).
Qed.

(** ** Documents with a node that has no inputs *)

Lemma scan_links_skip key before :
  forall done rest,
    distinct (Dict.keys (done ++ before ++ rest)) = true ->
    passed_over key before = true ->
    scan_links key (JObj (done ++ before ++ rest)) (map JStr (Dict.keys (before ++ rest)))
    = scan_links key (JObj (done ++ before ++ rest)) (map JStr (Dict.keys rest)).
Proof.
  induction before as [|[k node] before IH]; intros done rest Hd Hp; [reflexivity|].
  unfold passed_over in Hp. cbn [forallb snd] in Hp.
  apply andb_true_iff in Hp as [Hn Hp]. apply andb_true_iff in Hn as [Hok Hnh].
  apply negb_true_iff in Hnh.
  destruct (node_ok_inv _ Hok) as (fields & inputs & -> & Hin).
  assert (Hfresh : existsb (String.eqb k) (Dict.keys done) = false).
  { unfold Dict.keys in Hd. rewrite map_app in Hd. simpl in Hd.
    now destruct (distinct_app_cons _ _ _ Hd). }
  cbn [app Dict.keys map fst scan_links].
  unfold inputs_at at 1. cbn [py_getitem rbind].
  rewrite dict_get_app_fresh by exact Hfresh. cbn [Dict.get]. rewrite String.eqb_refl.
  cbn [py_getitem rbind]. rewrite Hin. cbn [py_contains rbind].
  assert (Hmem : Dict.mem key inputs = false).
  { rewrite <- Hnh. symmetry. apply holds_mem. simpl. now rewrite Hin. }
  rewrite Hmem.
  specialize (IH (done ++ [(k, JObj fields)]) rest).
  rewrite <- !app_assoc in IH. cbn [app] in IH. now apply IH.
Qed.

(** X10: the scan raises at the first node without 'inputs' it meets: if
    the nodes before it are records with inputs that do not contain the
    key, [get_node_id] (and, for a tone, [get_prompt_node_id]) raises
    [KeyError], whatever comes after, a node that holds the key
    included. *)
Theorem scan_raises_at_node_without_inputs
  (key : string) (w : Workflow) (W : World)
  (before : Dict.t) (id : string) (fields : Dict.t) (after : Dict.t) :
  workflow_data w = Some (JObj (before ++ (id, JObj fields) :: after)) ->
  distinct (Dict.keys (before ++ (id, JObj fields) :: after)) = true ->
  passed_over key before = true ->
  Dict.get "inputs" fields = None ->
  get_node_id key w W = (Raise KeyError, w, W)
  /\ (key = "positive" \/ key = "negative" ->
      get_prompt_node_id key w W = (Raise KeyError, w, W)).
Proof.
  intros Hd Hdist Hp Hnone.
  assert (Hfresh : existsb (String.eqb id) (Dict.keys before) = false).
  { unfold Dict.keys in Hdist. rewrite map_app in Hdist. simpl in Hdist.
    now destruct (distinct_app_cons _ _ _ Hdist). }
  assert (Hscan : scan_links key (JObj (before ++ (id, JObj fields) :: after))
                    (map JStr (Dict.keys (before ++ (id, JObj fields) :: after)))
                  = Raise KeyError).
  { pose proof (scan_links_skip key before [] ((id, JObj fields) :: after) Hdist Hp)
      as Hs.
    cbn [app] in Hs. rewrite Hs.
    cbn [app Dict.keys map fst scan_links]. unfold inputs_at. cbn [py_getitem rbind].
    rewrite dict_get_app_fresh by exact Hfresh. cbn [Dict.get].
    rewrite String.eqb_refl. cbn [py_getitem rbind]. now rewrite Hnone. }
  split.
  - unfold get_node_id, bind, self_data, lift. rewrite Hd. cbn [py_iter].
    now rewrite Hscan.
  - intros Ht. unfold get_prompt_node_id.
    replace (existsb (String.eqb key) ["positive"; "negative"]) with true
      by (destruct Ht; subst; reflexivity).
    unfold bind, self_data, lift. cbn [negb]. rewrite Hd. cbn [py_iter].
    now rewrite Hscan.
Qed.

Lemma distinct_app_l l1 l2 : distinct (l1 ++ l2) = true -> distinct l1 = true.
Proof.
  induction l1 as [|x l1 IH]; [reflexivity|]. simpl. intros H.
  apply andb_true_iff in H as [Hx Hl]. rewrite (IH Hl), andb_true_r.
  rewrite existsb_app in Hx. apply negb_true_iff, orb_false_iff in Hx as [Hx _].
  now rewrite Hx.
Qed.

Lemma for_each_app {A} (xs ys : list A) (body : A -> M unit) w W :
  for_each (xs ++ ys) body w W = (for_each xs body ;; for_each ys body) w W.
Proof.
  revert w W. induction xs as [|x xs IH]; intros w W; [reflexivity|].
  cbn [app for_each]. unfold bind in *.
  destruct (body x w W) as [[[[]|e] w1] W1]; [|reflexivity].
  apply IH.
Qed.

Section LoopPrefix.

Variable body : json -> M unit.
Variable upd : json -> World -> json * World.
Variable n : string.

Hypothesis body_upd :
  forall k node entries W,
    Dict.get k entries = Some node ->
    node_ok node = true ->
    body (JStr k) (mkWorkflow n (Some (JObj entries))) W
    = (Ok tt,
       mkWorkflow n (Some (JObj (Dict.set k (fst (upd node W)) entries))),
       snd (upd node W)).

(** The loop over the first nodes of a document, the rest left for later. *)
Lemma for_each_nodes_prefix todo :
  forall done rest W,
    distinct (Dict.keys (done ++ todo ++ rest)) = true ->
    forallb (fun e => node_ok (snd e)) todo = true ->
    for_each (map JStr (Dict.keys todo)) body
             (mkWorkflow n (Some (JObj (done ++ todo ++ rest)))) W
    = (Ok tt,
       mkWorkflow n (Some (JObj (done ++ fst (map_nodes upd todo W) ++ rest))),
       snd (map_nodes upd todo W)).
Proof.
  induction todo as [|[k node] todo IH]; intros done rest W Hd Hok; [reflexivity|].
  simpl in Hok. apply andb_true_iff in Hok as [Hn Hok].
  assert (Hfresh : existsb (String.eqb k) (Dict.keys done) = false).
  { unfold Dict.keys in Hd. rewrite map_app in Hd. simpl in Hd.
    now destruct (distinct_app_cons _ _ _ Hd). }
  cbn [Dict.keys map fst for_each app]. unfold bind.
  rewrite (body_upd k node).
  2: { rewrite dict_get_app_fresh by exact Hfresh. simpl.
       now rewrite String.eqb_refl. }
  2: exact Hn.
  rewrite dict_set_app_fresh by exact Hfresh.
  cbn [Dict.set]. rewrite String.eqb_refl.
  cbn [map_nodes]. destruct (upd node W) as [node' W1]. cbn [fst snd].
  specialize (IH (done ++ [(k, node')]) rest W1).
  rewrite <- !app_assoc in IH. cbn [app] in IH.
  fold (Dict.keys todo). rewrite IH.
  - destruct (map_nodes upd todo W1) as [rest' W2]. cbn [fst snd app].
    reflexivity.
  - clear IH. unfold Dict.keys in *. rewrite map_app in Hd |- *. exact Hd.
  - exact Hok.
Qed.

End LoopPrefix.

(** X11: [update_steps] is not all-or-nothing.  When the nodes before a
    record without 'inputs' are well formed, the call raises [KeyError]
    at that record with the nodes before it already updated (those that
    had 'steps' now have the new value) and the record and everything
    after it untouched; the world is unchanged. *)
Theorem update_steps_stops_at_node_without_inputs
  (steps : Z) (w : Workflow) (W : World)
  (before : Dict.t) (id : string) (fields : Dict.t) (after : Dict.t) :
  workflow_data w = Some (JObj (before ++ (id, JObj fields) :: after)) ->
  distinct (Dict.keys (before ++ (id, JObj fields) :: after)) = true ->
  forallb (fun e => node_ok (snd e)) before = true ->
  Dict.get "inputs" fields = None ->
  exists before',
    update_steps (JInt steps) w W
    = (Raise KeyError,
       mkWorkflow (workflow_name w) (Some (JObj (before' ++ (id, JObj fields) :: after))),
       W)
    /\ Dict.keys before' = Dict.keys before
    /\ forall k,
         (input_of (JObj before) k "steps" <> None ->
          input_of (JObj before') k "steps" = Some (JInt steps))
         /\ (input_of (JObj before) k "steps" = None ->
             node_of (JObj before') k = node_of (JObj before) k).
Proof.
  intros Hd Hdist Hok Hnone. destruct w as [name od]. simpl in Hd. subst od.
  exists (fst (map_nodes (steps_node (JInt steps)) before W)).
  assert (Hkeys : Dict.keys (fst (map_nodes (steps_node (JInt steps)) before W))
                  = Dict.keys before) by apply map_nodes_keys.
  split; [|split; [exact Hkeys|]].
  - unfold update_steps. unfold bind at 1, self_data at 1. cbn [workflow_data].
    unfold bind at 1, lift at 1. cbn [py_iter workflow_name].
    unfold Dict.keys. rewrite !map_app. rewrite for_each_app. unfold bind at 1.
    fold (Dict.keys before).
    rewrite (for_each_nodes_prefix _ (steps_node (JInt steps)) name
               (update_steps_body (JInt steps) name)
               before [] ((id, JObj fields) :: after) W Hdist Hok).
    rewrite map_nodes_world by reflexivity. cbn [app map fst for_each].
    unfold bind at 1 2, self_data at 1. cbn [workflow_data].
    unfold bind at 1, lift at 1, inputs_at. cbn [py_getitem rbind].
    rewrite dict_get_app_fresh.
    + cbn [Dict.get]. rewrite String.eqb_refl. cbn [py_getitem rbind].
      now rewrite Hnone.
    + rewrite Hkeys. unfold Dict.keys in Hdist. rewrite map_app in Hdist.
      simpl in Hdist. now destruct (distinct_app_cons _ _ _ Hdist).
  - intros k.
    assert (Hwf : is_workflow_document (JObj before) = true).
    { cbn [is_workflow_document]. rewrite Hok, andb_true_r.
      unfold Dict.keys in *. rewrite map_app in Hdist.
      exact (distinct_app_l _ _ Hdist). }
    destruct (field_update_frame "steps" (JInt steps) before W k Hwf) as (H1 & H2 & _).
    split; [exact H1 | exact H2].
Qed.

(** ** Names, and the file a workflow comes from *)

(** X12: a workflow that loads and passes validation is bound to the name
    with '.json' and to the document read, with the world unchanged; and
    saving it without a name writes the document to the very file it was
    loaded from. *)
Theorem load_then_save_same_file
  (json_dumps : json -> string) (json_loads : string -> option json)
  (validate_prompt : json -> bool) (dir_exists : string -> bool)
  (n : string) (W : World) (text : string) (d : json) :
  files W !! workflow_path n = Some text ->
  json_loads text = Some d ->
  validate_prompt d = true ->
  let w := mkWorkflow (with_json_suffix n) (Some d) in
  init json_loads validate_prompt n W = (Ok w, W)
  /\ save_workflow json_dumps dir_exists None w W
     = (Ok tt, w,
        mkWorld (<[workflow_path n := json_dumps d]> (files W))
                (stdout W) (entropy W) (sent W)).
Proof.
  intros Hf Hl Hv w. unfold w. split.
  - rewrite init_run, Hf, Hl, Hv. reflexivity.
  - assert (Hp : workflow_path (with_json_suffix n) = workflow_path n).
    { unfold workflow_path. now rewrite with_json_suffix_idem. }
    rewrite (save_workflow_run json_dumps dir_exists None
               (mkWorkflow (with_json_suffix n) (Some d)) W d eq_refl);
      cbn [workflow_name]; rewrite Hp; [reflexivity|].
    exact (can_open_w_present dir_exists _ _ _ Hf).
Qed.

(** X13: a name and the same name with '.json' stand for one workflow:
    constructing from either has the same outcome, and saving under
    either writes the same file. *)
Theorem name_with_or_without_suffix
  (json_dumps : json -> string) (json_loads : string -> option json)
  (validate_prompt : json -> bool) (dir_exists : string -> bool)
  (n : string) (w : Workflow) (W : World) :
  init json_loads validate_prompt (with_json_suffix n) W
  = init json_loads validate_prompt n W
  /\ save_workflow json_dumps dir_exists (Some (with_json_suffix n)) w W
     = save_workflow json_dumps dir_exists (Some n) w W.
Proof.
  split.
  - rewrite !init_run. unfold workflow_path. now rewrite with_json_suffix_idem.
  - unfold save_workflow, bind, ret. cbv beta iota.
    now rewrite with_json_suffix_idem.
Qed.

(** ** Whole runs *)

(** X16: a flag given as an empty string or as zero is not acted on: the
    run is the run without that flag.  So steps and seed cannot be set to
    0 from the command line. *)
Theorem main_ignores_empty_and_zero_flags
  (json_dumps : json -> string) (json_loads : string -> option json)
  (validate_prompt : json -> bool) (dir_exists : string -> bool)
  (args : Args) (W : World) :
  main json_dumps json_loads validate_prompt dir_exists (effective_args args) W
  = main json_dumps json_loads validate_prompt dir_exists args W.
Proof.
  destruct args as [wf p np st sd port host sv]. unfold main, effective_args.
  cbn [arg_workflow arg_prompt arg_neg_prompt arg_steps arg_seed arg_port arg_host arg_save].
  assert (Hs : forall o k, when_str (given_str o) k = when_str o k).
  { intros [s|] k; [|reflexivity]. unfold given_str, when_str.
    destruct (String.eqb s EmptyString) eqn:E; [reflexivity | now rewrite E]. }
  assert (Hi : forall o k, when_int (given_int o) k = when_int o k).
  { intros [z|] k; [|reflexivity]. unfold given_int, when_int.
    destruct (z =? 0) eqn:E; [reflexivity | now rewrite E]. }
  now rewrite !Hs, !Hi.
Qed.

(** X17: a run with a prompt, a number of steps and a name to save under
    whose file can be opened for writing (it is there, or its directory
    is), on a file that loads, passes validation and holds a workflow
    document whose positive link names one of its nodes, ends normally
    having printed nothing and sent nothing; the one file it wrote, at the
    name to save under, holds the document with both updates applied: the
    linked node's 'text' is the prompt, every node that had 'steps' has
    the new value, and the node ids are the ones loaded. *)
Theorem main_saves_the_updated_document
  (json_dumps : json -> string) (json_loads : string -> option json)
  (validate_prompt : json -> bool) (dir_exists : string -> bool)
  (name p out host : string) (n port : Z) (W : World) (text : string) (d : json)
  (id : string) (node : json) (target : string) (rest : list json) :
  files W !! workflow_path name = Some text ->
  json_loads text = Some d ->
  validate_prompt d = true ->
  is_workflow_document d = true ->
  first_holder "positive" d = Some (id, node) ->
  node_input "positive" node = Some (JArr (JStr target :: rest)) ->
  node_of d target <> None ->
  p <> EmptyString -> n <> 0 -> out <> EmptyString ->
  can_open_w dir_exists W (workflow_path out) = true ->
  exists d2,
    main json_dumps json_loads validate_prompt dir_exists
         (mkArgs name (Some p) None (Some n) None port host (Some out)) W
    = (Ok tt,
       mkWorld (<[workflow_path out := json_dumps d2]> (files W))
               (stdout W) (entropy W) (sent W))
    /\ input_of d2 target "text" = Some (JStr p)
    /\ (forall k, input_of d k "steps" <> None -> input_of d2 k "steps" = Some (JInt n))
    /\ node_ids d2 = node_ids d.
Proof.
  intros Hf Hl Hv Hwf Hfh Hin Hpresent Hp Hn Hout Hopen.
  destruct d as [| | | |?|entries]; try discriminate.
  simpl in Hpresent.
  destruct (Dict.get target entries) as [tnode|] eqn:Hg; [clear Hpresent|congruence].
  pose proof (document_node_ok _ _ _ Hwf Hg) as Hok.
  set (entries1 := Dict.set target (with_input "text" (JStr p) tnode) entries).
  assert (Hwf1 : is_workflow_document (JObj entries1) = true).
  { apply document_set_node; [exact Hwf | | now apply with_input_ok].
    unfold Dict.mem. now rewrite Hg. }
  pose proof (store_sets_input_only entries target "text" (JStr p) tnode Hg Hok)
    as (Hids1 & Htext1 & Hother1 & Hinputs1 & _).
  fold entries1 in Hids1, Htext1, Hother1, Hinputs1.
  set (entries2 := fst (map_nodes (steps_node (JInt n)) entries1 W)).
  exists (JObj entries2). split; [|split; [|split]].
  - unfold main.
    cbn [arg_workflow arg_prompt arg_neg_prompt arg_steps arg_seed arg_port arg_host
         arg_save when_str when_int].
    rewrite init_run, Hf, Hl, Hv.
    apply String.eqb_neq in Hp, Hout. apply Z.eqb_neq in Hn. rewrite Hp, Hout, Hn.
    unfold bind at 1.
    change (update_positive_prompt (JStr p))
      with (pid <- get_prompt_node_id "positive" ;;
            if negb (is_none pid) then store_input pid "text" (JStr p)
            else print "No positive node found").
    rewrite (tone_update_run "positive" _ (JStr p)
               (mkWorkflow (with_json_suffix name) (Some (JObj entries))) W
               entries target tnode); auto.
    2: exact (found_link_holder _ _ _ _ _ _ Hfh Hin).
    cbn [workflow_name]. fold entries1.
    unfold bind at 1, ret at 1. unfold bind at 1.
    rewrite (update_steps_run (JInt n)
               (mkWorkflow (with_json_suffix name) (Some (JObj entries1))) W
               entries1 eq_refl Hwf1).
    cbn [workflow_name]. fold entries2.
    unfold bind at 1, ret at 1. unfold bind at 1.
    rewrite (save_workflow_run json_dumps dir_exists (Some out)
               (mkWorkflow (with_json_suffix name) (Some (JObj entries2))) W
               (JObj entries2) eq_refl Hopen).
    reflexivity.
  - destruct (field_update_frame "steps" (JInt n) entries1 W target Hwf1)
      as (_ & _ & H3 & _).
    change (field_node "steps" (JInt n)) with (steps_node (JInt n)) in H3.
    fold entries2 in H3. rewrite H3 by discriminate. exact Htext1.
  - intros k Hk.
    destruct (field_update_frame "steps" (JInt n) entries1 W k Hwf1) as (H1 & _).
    change (field_node "steps" (JInt n)) with (steps_node (JInt n)) in H1.
    fold entries2 in H1. apply H1.
    destruct (String.eqb_spec k target) as [->|Hne].
    + rewrite Hinputs1 by discriminate. exact Hk.
    + unfold input_of in *. now rewrite (Hother1 k Hne).
  - unfold entries2. cbn [node_ids]. rewrite map_nodes_keys. exact Hids1.
Qed.

(** X14: a file that is there but is not JSON makes construction fail
    with the decoder's error, whatever validation would say; no object is
    returned, the world is as before, and [main] stops there. *)
Theorem init_fails_on_unreadable_file
  (json_dumps : json -> string) (json_loads : string -> option json)
  (validate_prompt : json -> bool) (dir_exists : string -> bool)
  (n : string) (W : World) (text : string) :
  files W !! workflow_path n = Some text ->
  json_loads text = None ->
  init json_loads validate_prompt n W = (Raise JSONDecodeError, W)
  /\ forall args, arg_workflow args = n ->
       main json_dumps json_loads validate_prompt dir_exists args W
       = (Raise JSONDecodeError, W).
Proof.
  intros Hf Hl.
  assert (Hi : init json_loads validate_prompt n W = (Raise JSONDecodeError, W)).
  { rewrite init_run, Hf, Hl. reflexivity. }
  split; [exact Hi|]. intros args <-. unfold main. now rewrite Hi.
Qed.

(** * The properties on the sample data *)

Lemma get_prompt_node_id_unsupported_tone_witness :
  "model" <> "positive" /\ "model" <> "negative"
  /\ get_prompt_node_id "model" sample_workflow sample_world
     = (Raise (ValueError "tone should be 'positive' or 'negative'."),
        sample_workflow, sample_world).
Proof.
  split; [discriminate|]. split; [discriminate|].
  apply get_prompt_node_id_unsupported_tone; discriminate.
Defined.

Lemma find_node_by_role_witness :
  get_node_id "model" sample_workflow sample_world
  = (Ok (JStr "4"), sample_workflow, sample_world)
  /\ get_prompt_node_id "negative" sample_workflow sample_world
     = (Ok (JStr "7"), sample_workflow, sample_world)
  /\ get_node_id "vae" sample_workflow sample_world
     = (Raise (ValueError "No node found"), sample_workflow, sample_world).
Proof.
  pose proof (find_node_by_role "model" sample_workflow sample_world sample_document
                eq_refl eq_refl) as [Hmodel _].
  pose proof (find_node_by_role "negative" sample_workflow sample_world sample_document
                eq_refl eq_refl) as [Hneg _].
  pose proof (find_node_by_role "vae" sample_workflow sample_world sample_document
                eq_refl eq_refl) as [_ Hvae].
  split; [|split].
  - refine (proj1 (Hmodel "3" _ (JStr "4") [JInt 0] eq_refl eq_refl)).
  - refine (proj2 (Hneg "3" _ (JStr "7") [JInt 0] eq_refl eq_refl) _). now right.
  - exact (proj1 (Hvae eq_refl)).
Defined.

Lemma update_prompt_without_target_witness :
  first_holder "positive" loader_document = None
  /\ update_positive_prompt (JStr "a dog") (mkWorkflow "loader.json" (Some loader_document))
       sample_world
     = (Ok tt, mkWorkflow "loader.json" (Some loader_document),
        mkWorld (files sample_world) ["No positive node found"]
                (entropy sample_world) (sent sample_world)).
Proof.
  split; [reflexivity|].
  exact (proj1 (update_prompt_without_target (JStr "a dog")
                  (mkWorkflow "loader.json" (Some loader_document)) sample_world
                  loader_document eq_refl eq_refl) eq_refl).
Defined.

Lemma update_positive_prompt_dangling_link_witness :
  get_prompt_node_id "positive" (mkWorkflow "dangling.json" (Some dangling_document))
    sample_world
  = (Ok (JStr "6"), mkWorkflow "dangling.json" (Some dangling_document), sample_world)
  /\ node_of dangling_document "6" = None
  /\ update_positive_prompt (JStr "a dog")
       (mkWorkflow "dangling.json" (Some dangling_document)) sample_world
     = (Raise KeyError, mkWorkflow "dangling.json" (Some dangling_document), sample_world).
Proof.
  split; [reflexivity|]. split; [reflexivity|].
  refine (proj2 update_positive_prompt_dangling_link (JStr "a dog")
            (mkWorkflow "dangling.json" (Some dangling_document)) sample_world
            _ "6" eq_refl eq_refl _).
  left. reflexivity.
Defined.

Lemma update_positive_prompt_then_show_witness :
  exists d' res more,
    update_positive_prompt (JStr "a dog") sample_workflow sample_world
    = (Ok tt, mkWorkflow "txt2img.json" (Some d'), sample_world)
    /\ show_prompts (fun _ => EmptyString) (mkWorkflow "txt2img.json" (Some d')) sample_world
       = (res, mkWorkflow "txt2img.json" (Some d'),
          mkWorld (files sample_world) ("Positive prompt: a dog" :: more)
                  (entropy sample_world) (sent sample_world)).
Proof.
  destruct (update_positive_prompt_then_show (fun _ => EmptyString) "a dog"
              sample_workflow sample_world sample_document "3" _ "6" [JInt 0]
              eq_refl eq_refl eq_refl eq_refl ltac:(discriminate) eq_refl)
    as (d' & Hupd & _ & res & more & Hshow).
  exists d', res, more. split; [exact Hupd | exact Hshow].
Defined.

Lemma update_steps_sets_steps_only_witness :
  exists d',
    update_steps (JInt 30) sample_workflow sample_world
    = (Ok tt, mkWorkflow "txt2img.json" (Some d'), sample_world)
    /\ input_of d' "3" "steps" = Some (JInt 30)
    /\ node_of d' "6" = node_of sample_document "6"
    /\ input_of d' "3" "seed" = Some (JInt 5).
Proof.
  destruct (update_steps_sets_steps_only 30 sample_workflow sample_world sample_document
              eq_refl eq_refl) as (d' & Hrun & _ & Hall).
  exists d'. split; [exact Hrun|].
  destruct (Hall "3") as (Hset & _ & Hother & _).
  destruct (Hall "6") as (_ & Hsame & _ & _).
  split; [apply Hset; discriminate|].
  split; [apply Hsame; reflexivity|].
  rewrite Hother by discriminate. reflexivity.
Defined.

Lemma update_seed_random_range_witness :
  exists d' W' z,
    update_seed (JInt (-1)) sample_workflow sample_world
    = (Ok tt, mkWorkflow "txt2img.json" (Some d'), W')
    /\ input_of d' "3" "seed" = Some (JInt z) /\ 0 <= z <= 1000000.
Proof.
  destruct (update_seed_random_range sample_workflow sample_world sample_document
              eq_refl eq_refl) as (d' & W' & Hrun & Hall).
  destruct (Hall "3" ltac:(discriminate)) as (z & Hz & Hrange).
  exists d', W', z. auto.
Defined.

(** C2, as it is written, fails: with a random source whose next raw value
    is 1,000,000 the seed stored is 1,000,000 itself, which is not below
    1,000,000. *)
Lemma update_seed_random_reaches_1000000 :
  ~ (forall (w : Workflow) (W : World) (d : json),
       workflow_data w = Some d ->
       is_workflow_document d = true ->
       exists d' W',
         update_seed (JInt (-1)) w W = (Ok tt, mkWorkflow (workflow_name w) (Some d'), W')
         /\ forall id,
              input_of d id "seed" <> None ->
              exists z, input_of d' id "seed" = Some (JInt z) /\ 0 <= z < 1000000).
Proof.
  intros Hclaim.
  destruct (Hclaim sample_workflow sample_world sample_document eq_refl eq_refl)
    as (d' & W' & Hrun & Hall).
  rewrite (update_seed_random_run sample_workflow sample_world _ eq_refl eq_refl) in Hrun.
  injection Hrun as Hd' _. subst d'.
  destruct (Hall "3" ltac:(discriminate)) as (z & Hz & Hrange).
  vm_compute in Hz. injection Hz as <-. lia.
Qed.

Lemma init_passes_rejected_structure_witness :
  report_valid (rejecting sample_document) = false
  /\ init RefJson.loads (report_truth rejecting) "missing" sample_world
     = (Raise (FileNotFoundError
                 "Workflow file not found: /Users/simondharcourt/Downloads/missing.json"),
        sample_world)
  /\ init RefJson.loads (report_truth rejecting) "txt2img" stored_world
     = (Ok sample_workflow, stored_world).
Proof.
  split; [reflexivity|]. split.
  - refine (proj1 (proj1 (init_passes_rejected_structure RefJson.dumps RefJson.loads
                            downloads_only rejecting "missing" sample_world) _)).
    reflexivity.
  - refine (proj2 (init_passes_rejected_structure RefJson.dumps RefJson.loads
                     downloads_only rejecting "txt2img" stored_world)
              (RefJson.dumps sample_document) sample_document _ _).
    + vm_compute. reflexivity.
    + vm_compute. reflexivity.
Defined.

Lemma save_then_load_roundtrip_witness :
  let W1 := mkWorld (<[ "/Users/simondharcourt/Downloads/copy.json"
                        := RefJson.dumps sample_document ]> (files sample_world))
                    [] (entropy sample_world) [] in
  RefJson.loads (RefJson.dumps sample_document) = Some sample_document
  /\ save_workflow RefJson.dumps downloads_only (Some "copy") sample_workflow sample_world
     = (Ok tt, sample_workflow, W1)
  /\ load_workflow RefJson.loads (mkWorkflow "copy" None) W1
     = (Ok sample_document, mkWorkflow "copy.json" None, W1).
Proof.
  intros W1.
  assert (Hs : save_workflow RefJson.dumps downloads_only (Some "copy")
                 sample_workflow sample_world
               = (Ok tt, sample_workflow, W1)).
  { vm_compute. reflexivity. }
  split; [vm_compute; reflexivity|]. split; [exact Hs|].
  refine (proj2 (proj2 (save_then_load_roundtrip RefJson.dumps RefJson.loads downloads_only
                          (Some "copy") sample_workflow sample_workflow
                          (mkWorkflow "copy" None) sample_world W1 sample_document
                          _ _ _ Hs))).
  - reflexivity.
  - vm_compute. reflexivity.
  - reflexivity.
Defined.

(** Where the directory is missing the save raises, and no file is made. *)
Example save_workflow_missing_directory :
  save_workflow RefJson.dumps downloads_only (Some "nodir/out") sample_workflow sample_world
  = (Raise (FileNotFoundError "/Users/simondharcourt/Downloads/nodir/out.json"),
     sample_workflow, sample_world).
Proof. vm_compute. reflexivity. Qed.

(** * The further properties on the sample data *)

Lemma update_seed_given_sets_seed_only_witness :
  exists d',
    update_seed (JInt 42) sample_workflow sample_world
    = (Ok tt, mkWorkflow "txt2img.json" (Some d'), sample_world)
    /\ input_of d' "3" "seed" = Some (JInt 42)
    /\ node_of d' "6" = node_of sample_document "6".
Proof.
  destruct (update_seed_given_sets_seed_only 42 sample_workflow sample_world
              sample_document ltac:(discriminate) eq_refl eq_refl)
    as (d' & Hrun & _ & Hall).
  exists d'. split; [exact Hrun|].
  destruct (Hall "3") as (Hset & _). destruct (Hall "6") as (_ & Hsame & _).
  split; [apply Hset; discriminate | apply Hsame; reflexivity].
Defined.

Lemma update_seed_random_draws_in_order_witness :
  exists d' W',
    update_seed (JInt (-1)) (mkWorkflow "two.json" (Some two_sampler_document))
      counting_world
    = (Ok tt, mkWorkflow "two.json" (Some d'), W')
    /\ input_of d' "3" "seed" = Some (JInt 1000000)
    /\ input_of d' "5" "seed" = Some (JInt 0)
    /\ entropy W' 0%nat = 1000002.
Proof.
  destruct (update_seed_random_draws_in_order
              (mkWorkflow "two.json" (Some two_sampler_document)) counting_world
              [("3", node_at two_sampler_document "3");
               ("4", node_at two_sampler_document "4");
               ("5", node_at two_sampler_document "5")] eq_refl eq_refl)
    as (d' & W' & Hrun & Hseed & _ & _ & Hent & _).
  exists d', W'. split; [exact Hrun|]. split; [|split].
  - exact (Hseed [] "3" (node_at two_sampler_document "3")
             [("4", node_at two_sampler_document "4");
              ("5", node_at two_sampler_document "5")] eq_refl eq_refl).
  - exact (Hseed [("3", node_at two_sampler_document "3");
                  ("4", node_at two_sampler_document "4")]
             "5" (node_at two_sampler_document "5") [] eq_refl eq_refl).
  - exact (Hent 0%nat).
Defined.

Lemma update_steps_last_wins_witness :
  (update_steps (JInt 30) ;; update_steps (JInt 12)) sample_workflow sample_world
  = update_steps (JInt 12) sample_workflow sample_world.
Proof.
  exact (update_steps_last_wins 30 12 sample_workflow sample_world sample_document
           eq_refl eq_refl).
Defined.

Lemma update_prompt_changes_text_only_witness :
  exists d',
    update_negative_prompt (JStr "grainy") sample_workflow sample_world
    = (Ok tt, mkWorkflow "txt2img.json" (Some d'), sample_world)
    /\ input_of d' "7" "text" = Some (JStr "grainy")
    /\ node_of d' "6" = node_of sample_document "6".
Proof.
  destruct (proj2 (update_prompt_changes_text_only (JStr "grainy") sample_workflow
                     sample_world sample_document "3" (node_at sample_document "3") "7" [JInt 0]
                     eq_refl eq_refl ltac:(discriminate)) eq_refl eq_refl)
    as (d' & Hrun & _ & Htext & Hother & _).
  exists d'. split; [exact Hrun|]. split; [exact Htext|].
  apply Hother. discriminate.
Defined.

Lemma shared_text_node_last_update_wins_witness :
  exists d',
    (update_positive_prompt (JStr "a dog") ;; update_negative_prompt (JStr "blurry"))
      (mkWorkflow "shared.json" (Some shared_prompt_document)) sample_world
    = (Ok tt, mkWorkflow "shared.json" (Some d'), sample_world)
    /\ input_of d' "6" "text" = Some (JStr "blurry")
    /\ show_prompts (fun _ => EmptyString) (mkWorkflow "shared.json" (Some d'))
         sample_world
       = (Ok tt, mkWorkflow "shared.json" (Some d'),
          mkWorld (files sample_world)
                  ["Positive prompt: blurry"; "Negative prompt: blurry"]
                  (entropy sample_world) (sent sample_world)).
Proof.
  exact (shared_text_node_last_update_wins (fun _ => EmptyString) "a dog" "blurry"
           (mkWorkflow "shared.json" (Some shared_prompt_document)) sample_world
           shared_prompt_document "3" "3" (node_at shared_prompt_document "3")
           (node_at shared_prompt_document "3") "6" [JInt 0] [JInt 0]
           eq_refl eq_refl eq_refl eq_refl eq_refl eq_refl ltac:(discriminate)).
Defined.


Lemma show_prompts_without_text_witness :
  input_of textless_document "6" "text" = None
  /\ show_prompts (fun _ => EmptyString)
       (mkWorkflow "textless.json" (Some textless_document)) sample_world
     = (Raise KeyError, mkWorkflow "textless.json" (Some textless_document), sample_world).
Proof.
  split; [reflexivity|].
  exact (show_prompts_without_text (fun _ => EmptyString)
           (mkWorkflow "textless.json" (Some textless_document)) sample_world
           textless_document "3" (node_at textless_document "3") "6" [JInt 0]
           eq_refl eq_refl eq_refl eq_refl ltac:(discriminate) eq_refl eq_refl).
Defined.

Lemma print_model_line_or_error_witness :
  print_model (fun _ => EmptyString) sample_workflow sample_world
  = (Ok tt, sample_workflow,
     mkWorld (files sample_world) ["Model: v1-5.safetensors"]
             (entropy sample_world) (sent sample_world))
  /\ print_model (fun _ => EmptyString)
       (mkWorkflow "loader.json" (Some loader_document)) sample_world
     = (Raise (ValueError "No node found"),
        mkWorkflow "loader.json" (Some loader_document), sample_world).
Proof.
  split.
  - exact (proj1 (print_model_line_or_error (fun _ => EmptyString) sample_workflow
                    sample_world sample_document eq_refl eq_refl)
             "3" (node_at sample_document "3") "4" [JInt 0] (JStr "v1-5.safetensors")
             eq_refl eq_refl eq_refl).
  - exact (proj2 (print_model_line_or_error (fun _ => EmptyString)
                    (mkWorkflow "loader.json" (Some loader_document)) sample_world
                    loader_document eq_refl eq_refl) eq_refl).
Defined.

Lemma scan_raises_at_node_without_inputs_witness :
  holds "model" (JObj [("inputs", JObj [("steps", JInt 20); ("model", link "4" 0)])]) = true
  /\ get_node_id "model" (mkWorkflow "note.json" (Some note_document)) sample_world
     = (Raise KeyError, mkWorkflow "note.json" (Some note_document), sample_world).
Proof.
  split; [reflexivity|].
  exact (proj1 (scan_raises_at_node_without_inputs "model"
                  (mkWorkflow "note.json" (Some note_document)) sample_world
                  note_entries_before "2" note_fields note_entries_after
                  eq_refl eq_refl eq_refl eq_refl)).
Defined.

Lemma update_steps_stops_at_node_without_inputs_witness :
  exists before',
    update_steps (JInt 30) (mkWorkflow "note.json" (Some note_document)) sample_world
    = (Raise KeyError,
       mkWorkflow "note.json"
         (Some (JObj (before' ++ ("2", JObj note_fields) :: note_entries_after))),
       sample_world)
    /\ input_of (JObj before') "1" "steps" = Some (JInt 30)
    /\ input_of (JObj note_entries_after) "3" "steps" = Some (JInt 20).
Proof.
  destruct (update_steps_stops_at_node_without_inputs 30
              (mkWorkflow "note.json" (Some note_document)) sample_world
              note_entries_before "2" note_fields note_entries_after
              eq_refl eq_refl eq_refl eq_refl)
    as (before' & Hrun & _ & Hall).
  exists before'. split; [exact Hrun|]. split; [|reflexivity].
  apply (proj1 (Hall "1")). discriminate.
Defined.

Lemma load_then_save_same_file_witness :
  init RefJson.loads accept_all "txt2img" stored_world
  = (Ok sample_workflow, stored_world)
  /\ save_workflow RefJson.dumps no_directory None sample_workflow stored_world
     = (Ok tt, sample_workflow,
        mkWorld (<[workflow_path "txt2img" := RefJson.dumps sample_document]>
                   (files stored_world))
                (stdout stored_world) (entropy stored_world) (sent stored_world)).
Proof.
  refine (load_then_save_same_file RefJson.dumps RefJson.loads accept_all no_directory
            "txt2img" stored_world (RefJson.dumps sample_document) sample_document _ _ _).
  - vm_compute. reflexivity.
  - vm_compute. reflexivity.
  - reflexivity.
Defined.

Lemma main_saves_the_updated_document_witness :
  exists d2,
    main RefJson.dumps RefJson.loads accept_all downloads_only
         (mkArgs "txt2img" (Some "a dog") None (Some 30) None 8188 "127.0.0.1"
                 (Some "out")) stored_world
    = (Ok tt,
       mkWorld (<[workflow_path "out" := RefJson.dumps d2]> (files stored_world))
               (stdout stored_world) (entropy stored_world) (sent stored_world))
    /\ input_of d2 "6" "text" = Some (JStr "a dog")
    /\ input_of d2 "3" "steps" = Some (JInt 30).
Proof.
  destruct (main_saves_the_updated_document RefJson.dumps RefJson.loads accept_all
              downloads_only "txt2img" "a dog" "out" "127.0.0.1" 30 8188 stored_world
              (RefJson.dumps sample_document) sample_document "3"
              (node_at sample_document "3") "6" [JInt 0])
    as (d2 & Hrun & Htext & Hsteps & _);
    try reflexivity; try discriminate; try (vm_compute; reflexivity).
  exists d2. split; [exact Hrun|]. split; [exact Htext|].
  apply Hsteps. discriminate.
Defined.

Lemma init_fails_on_unreadable_file_witness :
  init RefJson.loads accept_all "txt2img" junk_world = (Raise JSONDecodeError, junk_world).
Proof.
  refine (proj1 (init_fails_on_unreadable_file RefJson.dumps RefJson.loads accept_all
                   downloads_only "txt2img" junk_world "not json" _ _)).
  - vm_compute. reflexivity.
  - vm_compute. reflexivity.
Defined.
